(** * reset_db: the database reset script of the ALEX backend

    A shallow embedding of [backend/database/reset_db.py].  The script is a
    linear sequence of calls to external collaborators (the Data API client,
    the repository layer, two subprocesses) and of console prints.  It is
    embedded in a small monad that threads the state of the outside world,
    records every interaction together with its answer in a trace, and
    distinguishes normal completion, an uncaught Python [Exception] and
    [sys.exit]. *)

From Stdlib Require Import ZArith List String Ascii Bool Lia Arith.
From Stdlib Require Import DecimalString.
Import ListNotations.

Local Open Scope string_scope.
Local Open Scope list_scope.

Set Implicit Arguments.

(** ** Python values used by the script *)

(** [decimal.Decimal] built from a literal; [str] gives the literal back for
    the canonical literals the script uses. *)
Inductive Decimal : Type :=
| Dec (literal : string).

Definition str_Decimal (d : Decimal) : string :=
  match d with Dec l => l end.

(** A JSON-like cell of a row returned by [DataAPIClient.query]. *)
Inductive value : Type :=
| VInt (z : Z)
| VStr (s : string)
| VNone.

Definition str_Z (z : Z) : string :=
  NilZero.string_of_int (Z.to_int z).

(** [f"{v}"] *)
Definition str_value (v : value) : string :=
  match v with
  | VInt z => str_Z z
  | VStr s => s
  | VNone => "None"
  end.

(** A row is a Python [dict] from column names to cells. *)
Definition dict : Type := list (string * value).

Fixpoint dict_get (d : dict) (k : string) : option value :=
  match d with
  | [] => None
  | (k', v) :: d' => if String.eqb k' k then Some v else dict_get d' k
  end.

(** Instances of Python's [Exception], identified by their [str(e)]. *)
Inductive exn : Type :=
| Exception (msg : string).

Definition str_exn (e : exn) : string :=
  match e with Exception m => m end.

Definition KeyError (k : string) : exn := Exception ("'" ++ k ++ "'").

(** [subprocess.CompletedProcess] as [run_cmd] returns it. *)
Record CompletedProcess : Type := {
  returncode : Z;
  stdout : option string;
  stderr : option string
}.

(** [x or ""] on an optional string. *)
Definition or_empty (x : option string) : string :=
  match x with
  | Some s => s
  | None => ""
  end.

(** [needle in haystack] on strings. *)
Fixpoint str_in (needle haystack : string) : bool :=
  if String.prefix needle haystack then true
  else match haystack with
       | EmptyString => false
       | String _ rest => str_in needle rest
       end.

(** ["=" * 50] *)
Fixpoint str_repeat (s : string) (n : nat) : string :=
  match n with
  | O => ""
  | S n' => s ++ str_repeat s n'
  end.

Definition nl : string := String (ascii_of_nat 10) EmptyString.

(** ** Rows and payloads of the repository layer *)

Definition AccountId : Type := nat.

(** [UserCreate]; a stored user row carries the same fields. *)
Record UserCreate : Type := {
  clerk_user_id : string;
  display_name : string;
  years_until_retirement : Z;
  target_retirement_income : Decimal
}.

Record AccountCreate : Type := {
  account_name : string;
  account_purpose : string;
  cash_balance : Decimal;
  cash_interest : Decimal
}.

Record PositionCreate : Type := {
  position_account_id : AccountId;
  position_symbol : string;
  position_quantity : Decimal
}.

(** A stored account row: [acc['id']], the owning user and the payload. *)
Record AccountRow : Type := {
  acc_id : AccountId;
  acc_owner : string;
  acc_data : AccountCreate
}.

(** [model_dump()] of a schema object whose fields already have the declared
    types: the validated mapping holds the same values. *)
Definition model_dump {A : Type} (x : A) : A := x.

(** ** Interactions with the outside world *)

(** Every call to a collaborator is recorded with its answer: [inl e] when
    the call raised the exception [e], [inr x] when it returned [x]. *)
Inductive event : Type :=
| Print (line : string)
| Execute (sql : string) (r : exn + unit)
| Query (sql : string) (r : exn + list dict)
| RunCmd (cmd : list string) (r : exn + CompletedProcess)
| FindByClerkId (cid : string) (r : exn + option UserCreate)
| CreateUser (u : UserCreate) (r : exn + unit)
| FindByUser (cid : string) (r : exn + list AccountRow)
| CreateAccount (cid : string) (a : AccountCreate) (r : exn + AccountId)
| FindByAccount (aid : AccountId) (r : exn + list PositionCreate)
| AddPosition (aid : AccountId) (sym : string) (q : Decimal) (r : exn + unit).

(** How a piece of the script ends. [sys.exit] raises [SystemExit], which
    [except Exception] does not catch. *)
Inductive outcome (A : Type) : Type :=
| Normal (a : A)
| Raised (e : exn)
| Exited (code : Z).

Arguments Normal {A} a.
Arguments Raised {A} e.
Arguments Exited {A} code.

(** The process exit status: 0 after normal completion, the argument of
    [sys.exit], and 1 when the interpreter ends on an uncaught exception. *)
Definition exit_status (o : outcome unit) : Z :=
  match o with
  | Normal _ => 0
  | Raised _ => 1
  | Exited c => c
  end.

(** [src.client.DataAPIClient]: [execute(sql)] and [query(sql) -> rows]. *)
Record DataAPIClient (W : Type) : Type := {
  execute : string -> W -> W * (exn + unit);
  query : string -> W -> W * (exn + list dict)
}.

(** [src.models.Database]: the finder and creation methods of [users],
    [accounts] and [positions] the script calls. *)
Record Database (W : Type) : Type := {
  find_by_clerk_id : string -> W -> W * (exn + option UserCreate);
  create_user : UserCreate -> W -> W * (exn + unit);
  find_by_user : string -> W -> W * (exn + list AccountRow);
  create_account : string -> AccountCreate -> W -> W * (exn + AccountId);
  find_by_account : AccountId -> W -> W * (exn + list PositionCreate);
  add_position : AccountId -> string -> Decimal -> W -> W * (exn + unit)
}.

(** [subprocess.run(cmd, capture_output=True, text=True, ...)]. *)
Definition Subprocess (W : Type) : Type :=
  list string -> W -> W * (exn + CompletedProcess).

(** ** The monad of the script *)

Record run (W A : Type) : Type := Run {
  world_of : W;
  trace_of : list event;
  outcome_of : outcome A
}.

Arguments Run {W A} _ _ _.

Definition M (W A : Type) : Type := W -> run W A.

Section Monad.
Context {W : Type}.

Definition ret {A} (a : A) : M W A :=
  fun w => Run w [] (Normal a).

Definition bind {A B} (m : M W A) (f : A -> M W B) : M W B :=
  fun w =>
    match m w with
    | Run w1 t1 (Normal a) =>
        match f a w1 with
        | Run w2 t2 o => Run w2 (t1 ++ t2) o
        end
    | Run w1 t1 (Raised e) => Run w1 t1 (Raised e)
    | Run w1 t1 (Exited c) => Run w1 t1 (Exited c)
    end.

Definition raise {A} (e : exn) : M W A :=
  fun w => Run w [] (Raised e).

(** [sys.exit(code)] *)
Definition sys_exit {A} (code : Z) : M W A :=
  fun w => Run w [] (Exited code).

Definition print (line : string) : M W unit :=
  fun w => Run w [Print line] (Normal tt).

(** A call to a collaborator, recorded with its answer. *)
Definition call {R} (f : W -> W * (exn + R)) (ev : exn + R -> event)
  : M W R :=
  fun w =>
    match f w with
    | (w1, inl e) => Run w1 [ev (inl e)] (Raised e)
    | (w1, inr x) => Run w1 [ev (inr x)] (Normal x)
    end.

(** [try: body / except Exception as e: handler e] *)
Definition try_except {A} (body : M W A) (handler : exn -> M W A)
  : M W A :=
  fun w =>
    match body w with
    | Run w1 t1 (Raised e) =>
        match handler e w1 with
        | Run w2 t2 o => Run w2 (t1 ++ t2) o
        end
    | r => r
    end.

(** [for x in xs: body x] *)
Fixpoint for_each {A} (xs : list A) (body : A -> M W unit) : M W unit :=
  match xs with
  | [] => ret tt
  | x :: xs' => bind (body x) (fun _ => for_each xs' body)
  end.

(** A [for] loop that updates a local variable. *)
Fixpoint for_fold {A S} (xs : list A) (s : S) (body : A -> S -> M W S)
  : M W S :=
  match xs with
  | [] => ret s
  | x :: xs' => bind (body x s) (fun s' => for_fold xs' s' body)
  end.

(** [d[k]] *)
Definition getitem (d : dict) (k : string) : M W value :=
  match dict_get d k with
  | Some v => ret v
  | None => raise (KeyError k)
  end.
End Monad.

Declare Scope script_scope.
Delimit Scope script_scope with script.
Notation "x <- m ;; k" := (bind m (fun x => k))
  (at level 61, m at next level, right associativity) : script_scope.
Notation "m ;; k" := (bind m (fun _ => k))
  (at level 61, right associativity) : script_scope.
Local Open Scope script_scope.

Definition str_nat (n : nat) : string := str_Z (Z.of_nat n).

(** ** The script *)

(** The parsed command line: [--with-test-data] and [--skip-drop]. *)
Record Args : Type := {
  with_test_data : bool;
  skip_drop : bool
}.

Definition tables_to_drop : list string :=
  ["positions"; "accounts"; "jobs"; "instruments"; "users"].

Definition drop_table_sql (table : string) : string :=
  "DROP TABLE IF EXISTS " ++ table ++ " CASCADE".

Definition drop_function_sql : string :=
  "DROP FUNCTION IF EXISTS update_updated_at_column() CASCADE".

Definition migrate_cmd : list string := ["uv"; "run"; "run_migrations.py"].
Definition seed_cmd : list string := ["uv"; "run"; "seed_data.py"].

Definition seed_marker : string := "22/22 instruments loaded".

Definition tables : list string :=
  ["users"; "instruments"; "accounts"; "positions"; "jobs"].

Definition count_sql (table : string) : string :=
  "SELECT COUNT(*) as count FROM " ++ table.

Definition count_line (table : string) (count : value) : string :=
  "   • " ++ table ++ ": " ++ str_value count ++ " records".

Definition test_user : UserCreate :=
  {| clerk_user_id := "test_user_001";
     display_name := "Test User";
     years_until_retirement := 25;
     target_retirement_income := Dec "100000" |}.

Definition test_accounts : list AccountCreate :=
  [ {| account_name := "401(k)";
       account_purpose := "Primary retirement savings";
       cash_balance := Dec "5000";
       cash_interest := Dec "0.045" |};
    {| account_name := "Roth IRA";
       account_purpose := "Tax-free retirement savings";
       cash_balance := Dec "1000";
       cash_interest := Dec "0.04" |};
    {| account_name := "Taxable Brokerage";
       account_purpose := "General investment account";
       cash_balance := Dec "2500";
       cash_interest := Dec "0.035" |} ].

Definition test_positions : list (string * Decimal) :=
  [ ("SPY", Dec "100");
    ("QQQ", Dec "50");
    ("BND", Dec "200");
    ("VEA", Dec "150");
    ("GLD", Dec "25") ].

Section Script.
Context {W : Type}.
Variable db : DataAPIClient W.
Variable db_models : Database W.
Variable subprocess_run : Subprocess W.

Definition run_cmd (cmd : list string) : M W CompletedProcess :=
  call (subprocess_run cmd) (RunCmd cmd).

Definition db_execute (sql : string) : M W unit :=
  call (execute db sql) (Execute sql).

Definition db_query (sql : string) : M W (list dict) :=
  call (query db sql) (Query sql).

(** Lines 43-66. *)
Definition drop_all_tables : M W unit :=
  print "🗑️  Dropping existing tables..." ;;
  for_each tables_to_drop (fun table =>
    try_except
      (db_execute ("DROP TABLE IF EXISTS " ++ table ++ " CASCADE") ;;
       print ("   ✅ Dropped " ++ table))
      (fun e =>
         print ("   ⚠️  Error dropping " ++ table ++ ": " ++ str_exn e))) ;;
  try_except
    (db_execute "DROP FUNCTION IF EXISTS update_updated_at_column() CASCADE" ;;
     print "   ✅ Dropped update_updated_at_column function")
    (fun e => print ("   ⚠️  Error dropping function: " ++ str_exn e)).

(** Lines 73-91: the test user, looked up by clerk id and created when
    absent. *)
Definition ensure_test_user : M W unit :=
  let user_data := test_user in
  existing <- call (find_by_clerk_id db_models "test_user_001")
                   (FindByClerkId "test_user_001") ;;
  match existing with
  | Some _ => print "   ℹ️  Test user already exists"
  | None =>
      let validated := model_dump user_data in
      call (create_user db_models validated) (CreateUser validated) ;;
      print "   ✅ Created test user"
  end.

(** Lines 93-131: the value of [account_ids] when line 133 is reached. *)
Definition ensure_test_accounts : M W (list AccountId) :=
  let accounts := test_accounts in
  user_accounts <- call (find_by_user db_models "test_user_001")
                        (FindByUser "test_user_001") ;;
  match user_accounts with
  | _ :: _ =>
      print ("   ℹ️  User already has "
             ++ str_nat (List.length user_accounts) ++ " accounts") ;;
      ret (map acc_id user_accounts)
  | [] =>
      for_fold accounts [] (fun acc_data account_ids =>
        let validated := model_dump acc_data in
        acc_id <- call (create_account db_models "test_user_001" validated)
                       (CreateAccount "test_user_001" validated) ;;
        print ("   ✅ Created account: " ++ account_name validated) ;;
        ret (account_ids ++ [acc_id]))
  end.

(** Lines 133-160: the guard on [account_ids] and the positions of the
    first account. *)
Definition ensure_test_positions (account_ids : list AccountId) : M W unit :=
  match account_ids with
  | [] => ret tt
  | account_id :: _ =>
      let positions := test_positions in
      existing_positions <- call (find_by_account db_models account_id)
                                 (FindByAccount account_id) ;;
      match existing_positions with
      | _ :: _ =>
          print ("   ℹ️  Account already has "
                 ++ str_nat (List.length existing_positions) ++ " positions")
      | [] =>
          for_each positions (fun '(symbol, quantity) =>
            let position :=
              {| position_account_id := account_id;
                 position_symbol := symbol;
                 position_quantity := quantity |} in
            let validated := model_dump position in
            call (add_position db_models
                               (position_account_id validated)
                               (position_symbol validated)
                               (position_quantity validated))
                 (AddPosition (position_account_id validated)
                              (position_symbol validated)
                              (position_quantity validated)) ;;
            print ("   ✅ Added position: " ++ str_Decimal quantity
                   ++ " shares of " ++ symbol))
      end
  end.

(** Lines 69-160; the three blocks above are its consecutive parts. *)
Definition create_test_data : M W unit :=
  print (nl ++ "👤 Creating test user and portfolio...") ;;
  ensure_test_user ;;
  account_ids <- ensure_test_accounts ;;
  ensure_test_positions account_ids.

(** Lines 183-191: the migration subprocess and the check of its exit
    status. *)
Definition run_migrations : M W unit :=
  print (nl ++ "📝 Running migrations...") ;;
  result <- run_cmd ["uv"; "run"; "run_migrations.py"] ;;
  if negb (returncode result =? 0)%Z then
    print "❌ Migration failed!" ;;
    print (or_empty (stderr result)) ;;
    sys_exit 1
  else
    print "✅ Migrations completed".

(** Lines 193-205: the seed subprocess, the check of its exit status and
    the summary line. *)
Definition load_seed_data : M W unit :=
  print (nl ++ "🌱 Loading seed data...") ;;
  result <- run_cmd ["uv"; "run"; "seed_data.py"] ;;
  if negb (returncode result =? 0)%Z then
    print "❌ Seed data failed!" ;;
    print (or_empty (stderr result)) ;;
    sys_exit 1
  else
    let stdout := or_empty (stdout result) in
    if str_in "22/22 instruments loaded" stdout then
      print "✅ Loaded 22 instruments"
    else
      print "✅ Seed data loaded".

(** Lines 213-215: the body of the verification loop. *)
Definition verify_table (table : string) : M W unit :=
  result <- db_query ("SELECT COUNT(*) as count FROM " ++ table) ;;
  count <- match result with
           | row :: _ => getitem row "count"
           | [] => ret (VInt 0)
           end ;;
  print ("   • " ++ table ++ ": " ++ str_value count ++ " records").

(** Lines 210-215. *)
Definition final_verification : M W unit :=
  print (nl ++ "🔍 Final verification...") ;;
  let tables := ["users"; "instruments"; "accounts"; "positions"; "jobs"] in
  for_each tables verify_table.

(** Lines 217-224. *)
Definition closing_lines (args : Args) : M W unit :=
  print (nl ++ str_repeat "=" 50) ;;
  print "✅ Database reset complete!" ;;
  if with_test_data args then
    print (nl ++ "📝 Test user created:") ;;
    print "   • User ID: test_user_001" ;;
    print "   • 3 accounts (401k, Roth IRA, Taxable)" ;;
    print "   • 5 positions in 401k account"
  else ret tt.

(** Lines 166-224, from the parsed arguments and the two constructed
    handles on; the blocks above are its consecutive parts. *)
Definition main (args : Args) : M W unit :=
  print "🚀 Database Reset Script" ;;
  print (str_repeat "=" 50) ;;
  (if negb (skip_drop args) then
     drop_all_tables ;;
     run_migrations
   else ret tt) ;;
  load_seed_data ;;
  (if with_test_data args then create_test_data else ret tt) ;;
  final_verification ;;
  closing_lines args.
End Script.

(** ** An in-memory repository *)

(** The persisted rows the fixture touches. *)
Record Store : Type := {
  users : list UserCreate;
  accounts : list AccountRow;
  positions : list PositionCreate
}.

Definition has_user (cid : string) (s : Store) : bool :=
  existsb (fun u => String.eqb (clerk_user_id u) cid) (users s).

Definition has_account (aid : AccountId) (s : Store) : bool :=
  existsb (fun a => Nat.eqb (acc_id a) aid) (accounts s).

Definition owned_by (cid : string) (a : AccountRow) : bool :=
  String.eqb (acc_owner a) cid.

Definition held_in (aid : AccountId) (p : PositionCreate) : bool :=
  Nat.eqb (position_account_id p) aid.

(** A database-issued identifier no stored account has. *)
Definition fresh_id (s : Store) : AccountId :=
  S (list_max (map acc_id (accounts s))).

(** A sample repository for concrete runs.  The module of the repository
    layer [src.models.Database] is not part of the sources at hand, and the
    statements about the script hold for every [Database W]; this one only
    serves to run the script on explicit rows.  It keeps the invariants of
    the rows ([clerk_user_id] is unique, an account belongs to an existing
    user, a position to an existing account: a creation that would break
    one raises) and makes choices of its own where nothing fixes the
    behaviour: its finders list the matching rows oldest first, change
    nothing and never raise, and [create_account] gives the new row an
    identifier above those of the stored rows. *)
Definition mem_models : Database Store :=
  {| find_by_clerk_id := fun cid s =>
       (s, inr (find (fun u => String.eqb (clerk_user_id u) cid) (users s)));
     create_user := fun u s =>
       if has_user (clerk_user_id u) s
       then (s, inl (Exception "duplicate clerk_user_id"))
       else ({| users := users s ++ [u];
                accounts := accounts s;
                positions := positions s |}, inr tt);
     find_by_user := fun cid s =>
       (s, inr (filter (owned_by cid) (accounts s)));
     create_account := fun cid a s =>
       if has_user cid s
       then ({| users := users s;
                accounts := accounts s
                            ++ [{| acc_id := fresh_id s;
                                   acc_owner := cid;
                                   acc_data := a |}];
                positions := positions s |}, inr (fresh_id s))
       else (s, inl (Exception "unknown clerk_user_id"));
     find_by_account := fun aid s =>
       (s, inr (filter (held_in aid) (positions s)));
     add_position := fun aid sym q s =>
       if has_account aid s
       then ({| users := users s;
                accounts := accounts s;
                positions := positions s
                             ++ [{| position_account_id := aid;
                                    position_symbol := sym;
                                    position_quantity := q |}] |}, inr tt)
       else (s, inl (Exception "unknown account_id")) |}.

(** A repository like [mem_models] whose [find_by_user] lists the newest
    account first. *)
Definition newest_first_models : Database Store :=
  {| find_by_clerk_id := find_by_clerk_id mem_models;
     create_user := create_user mem_models;
     find_by_user := fun cid s =>
       (s, inr (rev (filter (owned_by cid) (accounts s))));
     create_account := create_account mem_models;
     find_by_account := find_by_account mem_models;
     add_position := add_position mem_models |}.

(** A repository like [mem_models] on which no account can be created. *)
Definition accounts_refused_models : Database Store :=
  {| find_by_clerk_id := find_by_clerk_id mem_models;
     create_user := create_user mem_models;
     find_by_user := find_by_user mem_models;
     create_account := fun _ _ s =>
       (s, inl (Exception "permission denied for table accounts"));
     find_by_account := find_by_account mem_models;
     add_position := add_position mem_models |}.

Definition empty_store : Store :=
  {| users := []; accounts := []; positions := [] |}.

(** The row counts of the three fixture tables. *)
Definition row_counts (s : Store) : nat * nat * nat :=
  (List.length (users s), List.length (accounts s), List.length (positions s)).

(** ** Scripted collaborators for concrete runs *)

(** A client whose statements succeed and whose count queries answer one
    row holding [n]. *)
Definition counting_client (W : Type) (n : Z) : DataAPIClient W :=
  {| execute := fun _ w => (w, inr tt);
     query := fun _ w => (w, inr [[("count", VInt n)]]) |}.

(** A client on which every statement and every query raises. *)
Definition failing_client (W : Type) (msg : string) : DataAPIClient W :=
  {| execute := fun _ w => (w, inl (Exception msg));
     query := fun _ w => (w, inl (Exception msg)) |}.

(** A client whose queries answer no row at all. *)
Definition empty_client (W : Type) : DataAPIClient W :=
  {| execute := fun _ w => (w, inr tt);
     query := fun _ w => (w, inr []) |}.

Definition list_string_eqb (a b : list string) : bool :=
  if list_eq_dec string_dec a b then true else false.

(** Subprocesses that end with the given results. *)
Definition scripted_shell (W : Type) (migrate seed : CompletedProcess)
  : Subprocess W :=
  fun cmd w =>
    if list_string_eqb cmd migrate_cmd then (w, inr migrate)
    else (w, inr seed).

Arguments scripted_shell W migrate seed : clear implicits.

Definition completed (rc : Z) (out err : string) : CompletedProcess :=
  {| returncode := rc; stdout := Some out; stderr := Some err |}.

(** ** Reading a trace *)

Definition is_print (ev : event) : bool :=
  match ev with Print _ => true | _ => false end.

Definition is_execute (ev : event) : bool :=
  match ev with Execute _ _ => true | _ => false end.

Definition is_query (ev : event) : bool :=
  match ev with Query _ _ => true | _ => false end.

Definition is_run (cmd : list string) (ev : event) : bool :=
  match ev with RunCmd c _ => list_string_eqb c cmd | _ => false end.

Definition is_subprocess (ev : event) : bool :=
  match ev with RunCmd _ _ => true | _ => false end.

(** A call to the repository layer, made only by [create_test_data]. *)
Definition is_repository (ev : event) : bool :=
  match ev with
  | FindByClerkId _ _ | CreateUser _ _ | FindByUser _ _
  | CreateAccount _ _ _ | FindByAccount _ _ | AddPosition _ _ _ _ => true
  | _ => false
  end.

(** The statements passed to [db.execute], in order. *)
Definition executed (t : list event) : list string :=
  flat_map (fun ev => match ev with Execute sql _ => [sql] | _ => [] end) t.

(** The statements passed to [db.query], in order. *)
Definition queried (t : list event) : list string :=
  flat_map (fun ev => match ev with Query sql _ => [sql] | _ => [] end) t.

(** The calls made to collaborators, prints left out. *)
Definition calls (t : list event) : list event :=
  filter (fun ev => negb (is_print ev)) t.

(** What one pass of the drop loop leaves in the trace when the statement
    for [table] was answered by [r]. *)
Definition drop_table_events (table : string) (r : exn + unit) : list event :=
  [ Execute (drop_table_sql table) r;
    Print (match r with
           | inr _ => "   ✅ Dropped " ++ table
           | inl e => "   ⚠️  Error dropping " ++ table ++ ": " ++ str_exn e
           end) ].

Definition drop_function_events (r : exn + unit) : list event :=
  [ Execute drop_function_sql r;
    Print (match r with
           | inr _ => "   ✅ Dropped update_updated_at_column function"
           | inl e => "   ⚠️  Error dropping function: " ++ str_exn e
           end) ].

(** ** The vocabulary of the statements *)

(** Whatever the state of the world, every event of [m] satisfies [p]. *)
Definition emits {W : Type} (p : event -> bool) {A : Type} (m : M W A)
  : Prop :=
  forall w, forallb p (trace_of (m w)) = true.

(** [m] never leaves through [sys.exit]. *)
Definition never_exits {W A : Type} (m : M W A) : Prop :=
  forall w c, outcome_of (m w) <> Exited c.

(** What follows the seed step: lines 207-224. *)
Definition after_seed {W : Type} (db : DataAPIClient W)
           (db_models : Database W) (args : Args) : M W unit :=
  (if with_test_data args then create_test_data db_models else ret tt) ;;
  final_verification db ;;
  closing_lines args.

Arguments after_seed : simpl never.

(** What follows the reset and migration steps: lines 193-224. *)
Definition after_reset {W : Type} (db : DataAPIClient W)
           (db_models : Database W) (subprocess_run : Subprocess W)
           (args : Args) : M W unit :=
  load_seed_data subprocess_run ;; after_seed db db_models args.

Arguments after_reset : simpl never.

(** What the migration step leaves in the trace when the subprocess call
    was answered by [a]. *)
Definition migration_events (a : exn + CompletedProcess) : list event :=
  Print (nl ++ "📝 Running migrations...")
  :: RunCmd migrate_cmd a
  :: match a with
     | inl _ => []
     | inr r =>
         if (returncode r =? 0)%Z
         then [Print "✅ Migrations completed"]
         else [Print "❌ Migration failed!"; Print (or_empty (stderr r))]
     end.

(** The summary line after a seed run that ended with status 0. *)
Definition seed_summary (r : CompletedProcess) : string :=
  if str_in seed_marker (or_empty (stdout r))
  then "✅ Loaded 22 instruments"
  else "✅ Seed data loaded".

(** What the seed step leaves in the trace when the subprocess call was
    answered by [a]. *)
Definition seed_events (a : exn + CompletedProcess) : list event :=
  Print (nl ++ "🌱 Loading seed data...")
  :: RunCmd seed_cmd a
  :: match a with
     | inl _ => []
     | inr r =>
         if (returncode r =? 0)%Z
         then [Print (seed_summary r)]
         else [Print "❌ Seed data failed!"; Print (or_empty (stderr r))]
     end.

(** How a subprocess step ends on the answer [a]. *)
Definition status_outcome (a : exn + CompletedProcess) : outcome unit :=
  match a with
  | inl e => Raised e
  | inr r => if (returncode r =? 0)%Z then Normal tt else Exited 1
  end.

Definition banner : list event :=
  [Print "🚀 Database Reset Script"; Print (str_repeat "=" 50)].

(** Extends the run of what follows by the events [pre] that came first. *)
Definition prefixed {W A} (pre : list event) (r : run W A) : run W A :=
  Run (world_of r) (pre ++ trace_of r) (outcome_of r).

(** The migration subprocess is invoked before the seed subprocess. *)
Definition migration_precedes_seed (t : list event) : Prop :=
  exists pre am mid sd post,
    t = pre ++ RunCmd migrate_cmd am :: mid ++ RunCmd seed_cmd sd :: post.

(** A run on the in-memory repository with a client that counts [n] rows
    everywhere and subprocesses that end as given. *)
Definition sample_run (n : Z) (migrate seed : CompletedProcess) (args : Args)
  : run Store unit :=
  main (counting_client Store n) mem_models
       (scripted_shell Store migrate seed) args empty_store.

(** Goes on with [k] after a block that emitted [pre] and ended with [o],
    or stops there. *)
Definition continue_with {W} (pre : list event) (o : outcome unit) (w1 : W)
           (k : M W unit) : run W unit :=
  match o with
  | Normal _ => prefixed pre (k w1)
  | Raised e => Run w1 pre (Raised e)
  | Exited c => Run w1 pre (Exited c)
  end.

(** The events of lines 180-191 given the events of the drop step and the
    answer of the migration subprocess; [None] stands for --skip-drop. *)
Definition reset_events (t_drop : list event)
           (am : option (exn + CompletedProcess)) : list event :=
  match am with
  | None => []
  | Some a => t_drop ++ migration_events a
  end.

Definition reset_outcome (am : option (exn + CompletedProcess))
  : outcome unit :=
  match am with
  | None => Normal tt
  | Some a => status_outcome a
  end.

(** A subprocess returned with a non-zero exit status. *)
Definition returned_nonzero (ev : event) : bool :=
  match ev with
  | RunCmd _ (inr r) => negb (returncode r =? 0)%Z
  | _ => false
  end.


(** The value of [result[0]['count'] if result else 0]; [None] when the
    first row has no ['count'] column and the access raises [KeyError]. *)
Definition count_of (rows : list dict) : option value :=
  match rows with
  | [] => Some (VInt 0)
  | row :: _ => dict_get row "count"
  end.

(** What one pass of the verification loop leaves in the trace when the
    query for [table] was answered by [a]. *)
Definition verify_events (table : string) (a : exn + list dict) : list event :=
  Query (count_sql table) a
  :: match a with
     | inl _ => []
     | inr rows =>
         match count_of rows with
         | Some c => [Print (count_line table c)]
         | None => []
         end
     end.

Definition verify_outcome (a : exn + list dict) : outcome unit :=
  match a with
  | inl e => Raised e
  | inr rows =>
      match count_of rows with
      | Some _ => Normal tt
      | None => Raised (KeyError "count")
      end
  end.

(** The query was answered by rows from which a count can be read. *)
Definition answered (a : exn + list dict) : bool :=
  match a with
  | inl _ => false
  | inr rows => match count_of rows with Some _ => true | None => false end
  end.

(** The report stops at the first answer from which no count can be read. *)
Fixpoint report_outcome (answers : list (exn + list dict)) : outcome unit :=
  match answers with
  | [] => Normal tt
  | a :: rest => if answered a then report_outcome rest else verify_outcome a
  end.

Definition report_events (ts : list string) (answers : list (exn + list dict))
  : list event :=
  flat_map (fun '(t, a) => verify_events t a) (combine ts answers).

(** An interaction that does not stop the script: a print, a drop statement
    whatever it answers (its failure is caught), a query answered by rows
    from which the count can be read, a subprocess that returned status 0,
    a repository call that returned. *)
Definition succeeded (ev : event) : bool :=
  match ev with
  | Print _ | Execute _ _ => true
  | Query _ a => answered a
  | RunCmd _ (inr r) => (returncode r =? 0)%Z
  | FindByClerkId _ (inr _) | CreateUser _ (inr _) | FindByUser _ (inr _)
  | CreateAccount _ _ (inr _) | FindByAccount _ (inr _)
  | AddPosition _ _ _ (inr _) => true
  | _ => false
  end.

(** When every interaction of [m] succeeded, [m] ends normally. *)
Definition completes {W A : Type} (m : M W A) : Prop :=
  forall w, forallb succeeded (trace_of (m w)) = true ->
            exists a, outcome_of (m w) = Normal a.

Definition is_find_by_account (ev : event) : bool :=
  match ev with FindByAccount _ _ => true | _ => false end.

(** A repository call made before line 133 that raised. *)
Definition raised_before_guard (ev : event) : bool :=
  match ev with
  | FindByClerkId _ (inl _) | CreateUser _ (inl _)
  | FindByUser _ (inl _) | CreateAccount _ _ (inl _) => true
  | _ => false
  end.

(** The rows the script asks the repository to create. *)
Definition is_creation (ev : event) : bool :=
  match ev with
  | CreateUser _ _ | CreateAccount _ _ _ | AddPosition _ _ _ _ => true
  | _ => false
  end.

Definition creations (t : list event) : list event := filter is_creation t.

Definition is_create_user (ev : event) : bool :=
  match ev with CreateUser _ _ => true | _ => false end.

Definition is_create_account (ev : event) : bool :=
  match ev with CreateAccount _ _ _ => true | _ => false end.

Definition is_add_position (ev : event) : bool :=
  match ev with AddPosition _ _ _ _ => true | _ => false end.

(** A store with the test user and three accounts of that user, none of
    them with positions: what a run interrupted after line 131 leaves. *)
Definition accounts_without_positions : Store :=
  {| users := [test_user];
     accounts := map (fun '(i, a) => {| acc_id := i;
                                        acc_owner := "test_user_001";
                                        acc_data := a |})
                     (combine [1; 2; 3] test_accounts);
     positions := [] |}.

(** A store with the test user and only two accounts of that user, with the
    identifiers 7 and 9, and no position. *)
Definition partial_accounts : Store :=
  {| users := [test_user];
     accounts := map (fun '(i, a) => {| acc_id := i;
                                        acc_owner := "test_user_001";
                                        acc_data := a |})
                     (combine [7; 9] test_accounts);
     positions := [] |}.

(** The events of lines 73-91, of lines 93-131 and of lines 133-160. *)
Definition user_step_event (ev : event) : bool :=
  match ev with
  | Print _ | FindByClerkId _ _ | CreateUser _ _ => true
  | _ => false
  end.

Definition account_step_event (ev : event) : bool :=
  match ev with
  | Print _ | FindByUser _ _ | CreateAccount _ _ _ => true
  | _ => false
  end.

Definition position_step_event (ev : event) : bool :=
  match ev with
  | Print _ | FindByAccount _ _ | AddPosition _ _ _ _ => true
  | _ => false
  end.

(** ** How a run ends and what it announces *)

(** Lines 217-224: the closing lines depend on the flag alone. *)
Definition closing_events (args : Args) : list event :=
  [ Print (nl ++ str_repeat "=" 50);
    Print "✅ Database reset complete!" ]
  ++ (if with_test_data args
      then [ Print (nl ++ "📝 Test user created:");
             Print "   • User ID: test_user_001";
             Print "   • 3 accounts (401k, Roth IRA, Taxable)";
             Print "   • 5 positions in 401k account" ]
      else []).

(** The exception with which a call outside a [try] block ended. *)
Definition raised_by (ev : event) : option exn :=
  match ev with
  | Query _ (inl e) | RunCmd _ (inl e)
  | FindByClerkId _ (inl e) | CreateUser _ (inl e) | FindByUser _ (inl e)
  | CreateAccount _ _ (inl e) | FindByAccount _ (inl e)
  | AddPosition _ _ _ (inl e) => Some e
  | _ => None
  end.

(** [ev] is what made the script end with the exception [e]: a call that
    raised [e], or a count query whose first row has no ['count']. *)
Definition culprit (e : exn) (ev : event) : Prop :=
  raised_by ev = Some e
  \/ exists sql row rows,
       ev = Query sql (inr (row :: rows))
       /\ dict_get row "count" = None
       /\ e = KeyError "count".

(** A call that did not raise, or whose exception a [try] block caught
    (the drop statements). *)
Definition quiet (ev : event) : bool :=
  match raised_by ev with
  | None => true
  | Some _ => false
  end.

(** A computation that an exception ends right after the first event that
    causes one. *)
Definition stops_at_failure {W A : Type} (m : M W A) : Prop :=
  forall w,
    match outcome_of (m w) with
    | Raised e =>
        exists pre ev,
          trace_of (m w) = pre ++ [ev]
          /\ culprit e ev
          /\ forallb quiet pre = true
    | _ => forallb quiet (trace_of (m w)) = true
    end.

(** The line the fixture step prints right after an event: the
    confirmation of a creation that returned, the information about a
    lookup that found something. *)
Definition notice (ev : event) : option string :=
  match ev with
  | FindByClerkId _ (inr (Some _)) => Some "   ℹ️  Test user already exists"
  | CreateUser _ (inr _) => Some "   ✅ Created test user"
  | FindByUser _ (inr (a :: l)) =>
      Some ("   ℹ️  User already has "
            ++ str_nat (List.length (a :: l)) ++ " accounts")%string
  | CreateAccount _ a (inr _) =>
      Some ("   ✅ Created account: " ++ account_name a)%string
  | FindByAccount _ (inr (p :: ps)) =>
      Some ("   ℹ️  Account already has "
            ++ str_nat (List.length (p :: ps)) ++ " positions")%string
  | AddPosition _ sym q (inr _) =>
      Some ("   ✅ Added position: " ++ str_Decimal q
            ++ " shares of " ++ sym)%string
  | _ => None
  end.

(** Every event of [t] that calls for a notice is followed by its line. *)
Fixpoint announced (t : list event) : Prop :=
  match t with
  | [] => True
  | ev :: rest =>
      match notice ev with
      | Some line => exists rest', rest = Print line :: rest'
      | None => True
      end
      /\ announced rest
  end.

(** The step of the script a call belongs to: 1 the drop statements, 2 the
    migration subprocess, 3 the seed subprocess, 4 the repository calls of
    the fixture, 5 the count queries; prints have no step. *)
Definition phase (ev : event) : nat :=
  match ev with
  | Print _ => 0
  | Execute _ _ => 1
  | RunCmd cmd _ => if list_string_eqb cmd migrate_cmd then 2 else 3
  | Query _ _ => 5
  | _ => 4
  end.

(** The steps of the calls of a trace, in order. *)
Definition phases (t : list event) : list nat := map phase (calls t).

(** The subprocess launches of a trace, in order. *)
Definition subprocesses (t : list event) : list event :=
  filter is_subprocess t.

(** A client whose queries answer one row without a ['count'] column. *)
Definition uncounted_client (W : Type) : DataAPIClient W :=
  {| execute := fun _ w => (w, inr tt);
     query := fun _ w => (w, inr [[("total", VInt 3)]]) |}.

(** * Proofs *)

Example str_in_demo :
  str_in "22/22 instruments loaded" "ok: 22/22 instruments loaded!" = true
  /\ str_in "22/22 instruments loaded" "21/22 instruments loaded" = false
  /\ str_Z 22 = "22" /\ str_Z 0 = "0" /\ str_Z (-3) = "-3"
  /\ String.length "✅" = 3%nat.
Proof. repeat split; reflexivity. Qed.

(** ** Properties of every event a computation emits *)

Section Emits.
Context {W : Type}.
Variable p : event -> bool.

Lemma emits_ret {A} (a : A) : emits (W:=W) p (ret a).
Proof. intros w. reflexivity. Qed.

Lemma emits_raise {A} (e : exn) : emits (W:=W) p (@raise W A e).
Proof. intros w. reflexivity. Qed.

Lemma emits_sys_exit {A} (c : Z) : emits (W:=W) p (@sys_exit W A c).
Proof. intros w. reflexivity. Qed.

Lemma emits_print (line : string) :
  p (Print line) = true -> emits (W:=W) p (print line).
Proof. intros H w. simpl. rewrite H. reflexivity. Qed.

Lemma emits_call {R} (f : W -> W * (exn + R)) (ev : exn + R -> event) :
  (forall r, p (ev r) = true) -> emits (W:=W) p (call f ev).
Proof.
  intros H w. unfold call.
  destruct (f w) as [w1 [e|x]]; simpl; rewrite H; reflexivity.
Qed.

Lemma emits_bind {A B} (m : M W A) (f : A -> M W B) :
  emits (W:=W) p m -> (forall a, emits (W:=W) p (f a)) ->
  emits (W:=W) p (bind m f).
Proof.
  intros Hm Hf w. unfold bind. specialize (Hm w).
  destruct (m w) as [w1 t1 [a|e|c]]; simpl in *; auto.
  specialize (Hf a w1). destruct (f a w1) as [w2 t2 o]; simpl in *.
  rewrite forallb_app, Hm, Hf. reflexivity.
Qed.

Lemma emits_try {A} (body : M W A) (handler : exn -> M W A) :
  emits (W:=W) p body -> (forall e, emits (W:=W) p (handler e)) ->
  emits (W:=W) p (try_except body handler).
Proof.
  intros Hb Hh w. unfold try_except. specialize (Hb w).
  destruct (body w) as [w1 t1 [a|e|c]]; simpl in *; auto.
  specialize (Hh e w1). destruct (handler e w1) as [w2 t2 o]; simpl in *.
  rewrite forallb_app, Hb, Hh. reflexivity.
Qed.

Lemma emits_for_each {A} (xs : list A) (body : A -> M W unit) :
  (forall x, emits (W:=W) p (body x)) -> emits (W:=W) p (for_each xs body).
Proof.
  intros Hb. induction xs as [|x xs IH]; simpl.
  - apply emits_ret.
  - apply emits_bind; auto.
Qed.

Lemma emits_for_fold {A S} (xs : list A) (body : A -> S -> M W S) :
  (forall x s, emits (W:=W) p (body x s)) ->
  forall s, emits (W:=W) p (for_fold xs s body).
Proof.
  intros Hb. induction xs as [|x xs IH]; intros s; simpl.
  - apply emits_ret.
  - apply emits_bind; auto.
Qed.

Lemma emits_getitem (d : dict) (k : string) : emits (W:=W) p (@getitem W d k).
Proof.
  unfold getitem.
  destruct (dict_get d k); [apply emits_ret | apply emits_raise].
Qed.
End Emits.

Lemma emits_weaken {W A} (p q : event -> bool) (m : M W A) :
  (forall ev, p ev = true -> q ev = true) -> emits p m -> emits q m.
Proof.
  intros Hpq Hm w. specialize (Hm w).
  rewrite forallb_forall in *. auto.
Qed.

Lemma forallb_existsb_false {A} (p q : A -> bool) (l : list A) :
  (forall x, p x = true -> q x = false) ->
  forallb p l = true -> existsb q l = false.
Proof.
  intros Hpq. induction l as [|x l IH]; simpl; intros H; [reflexivity|].
  apply andb_true_iff in H as [Hx Hl].
  rewrite (Hpq x Hx), (IH Hl). reflexivity.
Qed.

Lemma emits_absent {W A} {p q : event -> bool} {m : M W A}
      (Hm : emits p m) (Hpq : forall ev, p ev = true -> q ev = false) :
  forall w, existsb q (trace_of (m w)) = false.
Proof.
  intros w. eapply forallb_existsb_false; [exact Hpq | apply Hm].
Qed.

(** Splits [emits p m] along the structure of [m]. *)
Ltac emits_step :=
  first
    [ apply emits_ret
    | apply emits_raise
    | apply emits_sys_exit
    | apply emits_getitem
    | apply emits_print; reflexivity
    | apply emits_call; intros ?; reflexivity
    | apply emits_bind; [| intros ?]
    | apply emits_try; [| intros ?]
    | apply emits_for_each; intros ?
    | apply emits_for_fold; intros ? ?
    | match goal with
      | |- emits _ (match ?x with _ => _ end) => destruct x
      end ].

Ltac emits_all := repeat emits_step.

(** ** How a computation can end *)

Section Endings.
Context {W : Type}.

Lemma never_exits_ret {A} (a : A) : never_exits (@ret W A a).
Proof. intros w c. discriminate. Qed.

Lemma never_exits_raise {A} (e : exn) : never_exits (@raise W A e).
Proof. intros w c. discriminate. Qed.

Lemma never_exits_print (line : string) : never_exits (@print W line).
Proof. intros w c. discriminate. Qed.

Lemma never_exits_call {R} (f : W -> W * (exn + R)) (ev : exn + R -> event) :
  never_exits (call f ev).
Proof.
  intros w c. unfold call. destruct (f w) as [w1 [e|x]]; discriminate.
Qed.

Lemma never_exits_bind {A B} (m : M W A) (f : A -> M W B) :
  never_exits m -> (forall a, never_exits (f a)) -> never_exits (bind m f).
Proof.
  intros Hm Hf w c. unfold bind. specialize (Hm w).
  destruct (m w) as [w1 t1 [a|e|c1]]; simpl in *.
  - specialize (Hf a w1 c). destruct (f a w1) as [w2 t2 o]; auto.
  - discriminate.
  - exfalso. apply (Hm c1). reflexivity.
Qed.

Lemma never_exits_for_each {A} (xs : list A) (body : A -> M W unit) :
  (forall x, never_exits (body x)) -> never_exits (for_each xs body).
Proof.
  intros Hb. induction xs as [|x xs IH]; simpl.
  - apply never_exits_ret.
  - apply never_exits_bind; auto.
Qed.

Lemma never_exits_for_fold {A S} (xs : list A) (body : A -> S -> M W S) :
  (forall x s, never_exits (body x s)) ->
  forall s, never_exits (for_fold xs s body).
Proof.
  intros Hb. induction xs as [|x xs IH]; intros s; simpl.
  - apply never_exits_ret.
  - apply never_exits_bind; auto.
Qed.

Lemma never_exits_getitem (d : dict) (k : string) :
  never_exits (@getitem W d k).
Proof.
  unfold getitem.
  destruct (dict_get d k); [apply never_exits_ret | apply never_exits_raise].
Qed.
End Endings.

Ltac never_exits_step :=
  first
    [ apply never_exits_ret
    | apply never_exits_raise
    | apply never_exits_getitem
    | apply never_exits_print
    | apply never_exits_call
    | apply never_exits_bind; [| intros ?]
    | apply never_exits_for_each; intros ?
    | apply never_exits_for_fold; intros ? ?
    | match goal with
      | |- never_exits (match ?x with _ => _ end) => destruct x
      end ].

Ltac never_exits_all := repeat never_exits_step.

(** ** The table-reset step *)

Section DropAllTables.
Context {W : Type}.
Variable db : DataAPIClient W.

Lemma drop_loop_run (ts : list string) :
  forall w : W,
  exists (rs : list (exn + unit)) (w' : W),
    List.length rs = List.length ts
    /\ for_each ts (fun table =>
         try_except
           (db_execute db ("DROP TABLE IF EXISTS " ++ table ++ " CASCADE") ;;
            print ("   ✅ Dropped " ++ table))
           (fun e =>
              print ("   ⚠️  Error dropping " ++ table ++ ": " ++ str_exn e)))
         w
       = Run w' (flat_map (fun '(t, r) => drop_table_events t r)
                          (combine ts rs))
             (Normal tt).
Proof.
  induction ts as [|t ts IH]; intros w.
  - exists [], w. split; reflexivity.
  - cbn [for_each]. set (rest := for_each ts _) in *.
    unfold bind, try_except, db_execute, call, print.
    destruct (execute db ("DROP TABLE IF EXISTS " ++ t ++ " CASCADE") w)
      as [w1 [e|[]]];
      destruct (IH w1) as (rs & w' & Hlen & Hrun); rewrite Hrun.
    + exists (inl e :: rs), w'. split; [simpl; congruence | reflexivity].
    + exists (inr tt :: rs), w'. split; [simpl; congruence | reflexivity].
Qed.

Lemma drop_all_tables_run (w : W) :
  exists (r1 r2 r3 r4 r5 rf : exn + unit) (w' : W),
    drop_all_tables db w
    = Run w'
        (Print "🗑️  Dropping existing tables..."
         :: drop_table_events "positions" r1
         ++ drop_table_events "accounts" r2
         ++ drop_table_events "jobs" r3
         ++ drop_table_events "instruments" r4
         ++ drop_table_events "users" r5
         ++ drop_function_events rf)
        (Normal tt).
Proof.
  unfold drop_all_tables.
  destruct (drop_loop_run tables_to_drop w) as (rs & w1 & Hlen & Hrun).
  set (loop := for_each tables_to_drop _) in *.
  unfold bind, try_except, db_execute, call, print.
  rewrite Hrun.
  destruct rs as [|r1 [|r2 [|r3 [|r4 [|r5 [|r6 rs]]]]]]; try discriminate Hlen.
  destruct (execute db _ w1) as [w2 [e|[]]].
  - exists r1, r2, r3, r4, r5, (inl e), w2. reflexivity.
  - exists r1, r2, r3, r4, r5, (inr tt), w2. reflexivity.
Qed.
End DropAllTables.

(** ** What each block of the script emits *)

Section Blocks.
Context {W : Type}.
Variable db : DataAPIClient W.
Variable db_models : Database W.
Variable subprocess_run : Subprocess W.

Lemma drop_all_tables_emits :
  emits (fun ev => is_print ev || is_execute ev) (drop_all_tables db).
Proof. unfold drop_all_tables, db_execute. emits_all. Qed.

Lemma run_migrations_emits :
  emits (fun ev => is_print ev || is_run migrate_cmd ev)
        (run_migrations subprocess_run).
Proof. unfold run_migrations, run_cmd. emits_all. Qed.

Lemma load_seed_data_emits :
  emits (fun ev => is_print ev || is_run seed_cmd ev)
        (load_seed_data subprocess_run).
Proof. unfold load_seed_data, run_cmd. emits_all. Qed.

Lemma create_test_data_emits :
  emits (fun ev => is_print ev || is_repository ev)
        (create_test_data db_models).
Proof.
  unfold create_test_data, ensure_test_user, ensure_test_accounts,
         ensure_test_positions.
  emits_all.
Qed.

Lemma final_verification_emits :
  emits (fun ev => is_print ev || is_query ev) (final_verification db).
Proof. unfold final_verification, verify_table, db_query. emits_all. Qed.

Lemma closing_lines_emits (args : Args) :
  emits is_print (@closing_lines W args).
Proof. unfold closing_lines. emits_all. Qed.

Lemma create_test_data_never_exits : never_exits (create_test_data db_models).
Proof.
  unfold create_test_data, ensure_test_user, ensure_test_accounts,
         ensure_test_positions.
  never_exits_all.
Qed.

Lemma final_verification_never_exits : never_exits (final_verification db).
Proof.
  unfold final_verification, verify_table, db_query. never_exits_all.
Qed.

Lemma closing_lines_never_exits (args : Args) :
  never_exits (@closing_lines W args).
Proof. unfold closing_lines. never_exits_all. Qed.
End Blocks.

(** ** The script as a whole *)

Section Main.
Context {W : Type}.
Variable db : DataAPIClient W.
Variable db_models : Database W.
Variable subprocess_run : Subprocess W.

Lemma main_unfold (args : Args) :
  main db db_models subprocess_run args
  = (print "🚀 Database Reset Script" ;;
     print (str_repeat "=" 50) ;;
     (if negb (skip_drop args) then
        drop_all_tables db ;; run_migrations subprocess_run
      else ret tt) ;;
     after_reset db db_models subprocess_run args).
Proof. reflexivity. Qed.

Lemma after_seed_emits (args : Args) :
  emits (fun ev => is_print ev || is_repository ev || is_query ev)
        (after_seed db db_models args).
Proof.
  unfold after_seed. apply emits_bind; [|intros _; apply emits_bind].
  - destruct (with_test_data args); [|apply emits_ret].
    eapply emits_weaken; [|apply create_test_data_emits].
    intros [] H; try discriminate H; reflexivity.
  - eapply emits_weaken; [|apply final_verification_emits].
    intros [] H; try discriminate H; reflexivity.
  - intros _. eapply emits_weaken; [|apply closing_lines_emits].
    intros [] H; try discriminate H; reflexivity.
Qed.

Lemma after_seed_never_exits (args : Args) :
  never_exits (after_seed db db_models args).
Proof.
  unfold after_seed.
  apply never_exits_bind; [|intros _; apply never_exits_bind].
  - destruct (with_test_data args);
      [apply create_test_data_never_exits | apply never_exits_ret].
  - apply final_verification_never_exits.
  - intros _. apply closing_lines_never_exits.
Qed.

Lemma after_reset_emits (args : Args) :
  emits (fun ev => is_print ev || is_run seed_cmd ev
                   || is_repository ev || is_query ev)
        (after_reset db db_models subprocess_run args).
Proof.
  unfold after_reset. apply emits_bind.
  - eapply emits_weaken; [|apply load_seed_data_emits].
    intros ev H. apply orb_true_iff in H as [H|H]; rewrite H;
      rewrite ?orb_true_r; reflexivity.
  - intros _. eapply emits_weaken; [|apply after_seed_emits].
    intros ev H. apply orb_true_iff in H as [H|H];
      [apply orb_true_iff in H as [H|H]|]; rewrite H;
      rewrite ?orb_true_r; reflexivity.
Qed.
End Main.

(** ** Runs of the script, block by block *)

Lemma bind_run {W A B} (m : M W A) (f : A -> M W B) (w : W) :
  bind m f w
  = match outcome_of (m w) with
    | Normal a =>
        Run (world_of (f a (world_of (m w))))
            (trace_of (m w) ++ trace_of (f a (world_of (m w))))
            (outcome_of (f a (world_of (m w))))
    | Raised e => Run (world_of (m w)) (trace_of (m w)) (Raised e)
    | Exited c => Run (world_of (m w)) (trace_of (m w)) (Exited c)
    end.
Proof.
  unfold bind. destruct (m w) as [w1 t1 [a|e|c]]; simpl; auto.
  destruct (f a w1); reflexivity.
Qed.

Lemma in_forallb_contra {A} (p : A -> bool) (l : list A) (x : A) :
  forallb p l = true -> In x l -> p x = false -> False.
Proof.
  intros Hall Hin Hx. rewrite forallb_forall in Hall.
  rewrite (Hall x Hin) in Hx. discriminate.
Qed.

Section Runs.
Context {W : Type}.
Variable db : DataAPIClient W.
Variable db_models : Database W.
Variable subprocess_run : Subprocess W.

Lemma run_migrations_run (w : W) :
  exists a w1,
    run_migrations subprocess_run w
    = Run w1 (migration_events a) (status_outcome a).
Proof.
  unfold run_migrations, bind, run_cmd, call, print. fold migrate_cmd.
  destruct (subprocess_run migrate_cmd w) as [w1 [e|r]].
  - exists (inl e), w1. reflexivity.
  - exists (inr r), w1. unfold migration_events, status_outcome.
    destruct (returncode r =? 0)%Z; reflexivity.
Qed.

Lemma load_seed_data_run (w : W) :
  exists a w1,
    load_seed_data subprocess_run w
    = Run w1 (seed_events a) (status_outcome a).
Proof.
  unfold load_seed_data, bind, run_cmd, call, print.
  fold seed_cmd seed_marker.
  destruct (subprocess_run seed_cmd w) as [w1 [e|r]].
  - exists (inl e), w1. reflexivity.
  - exists (inr r), w1. unfold seed_events, status_outcome, seed_summary.
    destruct (returncode r =? 0)%Z; [|reflexivity].
    cbn [negb].
    destruct (str_in seed_marker (or_empty (stdout r))); reflexivity.
Qed.

(** The run from the seed step on. *)
Lemma after_reset_run (args : Args) (w : W) :
  exists a w1,
    after_reset db db_models subprocess_run args w
    = match status_outcome a with
      | Normal _ =>
          prefixed (seed_events a) (after_seed db db_models args w1)
      | o => Run w1 (seed_events a) o
      end.
Proof.
  unfold after_reset. rewrite bind_run.
  destruct (load_seed_data_run w) as (a & w1 & Hrun). rewrite Hrun.
  exists a, w1. cbn [outcome_of trace_of world_of].
  destruct (status_outcome a) as [[]|e|c]; reflexivity.
Qed.

(** The run with [--skip-drop]. *)
Lemma main_run_skip_drop (b : bool) (w : W) :
  main db db_models subprocess_run
       {| with_test_data := b; skip_drop := true |} w
  = prefixed banner
      (after_reset db db_models subprocess_run
                   {| with_test_data := b; skip_drop := true |} w).
Proof.
  rewrite main_unfold. cbn [skip_drop negb].
  rewrite !bind_run. reflexivity.
Qed.

(** The run without [--skip-drop]. *)
Lemma main_run_reset (b : bool) (w : W) :
  exists a w1,
    main db db_models subprocess_run
         {| with_test_data := b; skip_drop := false |} w
    = match status_outcome a with
      | Normal _ =>
          prefixed (banner ++ trace_of (drop_all_tables db w)
                           ++ migration_events a)
            (after_reset db db_models subprocess_run
                         {| with_test_data := b; skip_drop := false |} w1)
      | o => Run w1 (banner ++ trace_of (drop_all_tables db w)
                            ++ migration_events a) o
      end.
Proof.
  rewrite main_unfold. cbn [skip_drop negb].
  destruct (drop_all_tables_run db w)
    as (r1 & r2 & r3 & r4 & r5 & rf & w' & Hdrop).
  destruct (run_migrations_run w') as (a & w1 & Hmig).
  exists a, w1.
  rewrite !bind_run. cbn [print outcome_of trace_of world_of].
  rewrite Hdrop. cbn [outcome_of trace_of world_of].
  rewrite Hmig. cbn [outcome_of trace_of world_of].
  unfold prefixed, banner.
  destruct (status_outcome a) as [[]|e|c];
    cbn [outcome_of trace_of world_of];
    rewrite <- ?app_assoc; reflexivity.
Qed.
End Runs.

(** ** The command line and the subprocess steps *)

Section CommandLine.
Context {W : Type}.
Variable db : DataAPIClient W.
Variable db_models : Database W.
Variable subprocess_run : Subprocess W.

(** C5. The table-reset step issues a drop-if-exists statement for
    positions, accounts, jobs, instruments and users, in this order, and
    then drops the function update_updated_at_column.  Whatever each
    statement answers, a failure is caught and logged by a warning line,
    the remaining statements are still issued, and the step ends
    normally: without --skip-drop the script always goes on to invoke the
    migration subprocess. *)
Theorem drop_all_tables_tolerates_failures (b : bool) (w : W) :
  (exists r1 r2 r3 r4 r5 rf : exn + unit,
      trace_of (drop_all_tables db w)
      = Print "🗑️  Dropping existing tables..."
        :: drop_table_events "positions" r1
        ++ drop_table_events "accounts" r2
        ++ drop_table_events "jobs" r3
        ++ drop_table_events "instruments" r4
        ++ drop_table_events "users" r5
        ++ drop_function_events rf)
  /\ executed (trace_of (drop_all_tables db w))
     = [ "DROP TABLE IF EXISTS positions CASCADE";
         "DROP TABLE IF EXISTS accounts CASCADE";
         "DROP TABLE IF EXISTS jobs CASCADE";
         "DROP TABLE IF EXISTS instruments CASCADE";
         "DROP TABLE IF EXISTS users CASCADE";
         "DROP FUNCTION IF EXISTS update_updated_at_column() CASCADE" ]
  /\ outcome_of (drop_all_tables db w) = Normal tt
  /\ existsb (is_run migrate_cmd)
       (trace_of (main db db_models subprocess_run
         {| with_test_data := b; skip_drop := false |} w))
     = true.
Proof.
  destruct (drop_all_tables_run db w)
    as (r1 & r2 & r3 & r4 & r5 & rf & w' & Hrun).
  split; [|split; [|split]].
  - exists r1, r2, r3, r4, r5, rf. rewrite Hrun. reflexivity.
  - rewrite Hrun. reflexivity.
  - rewrite Hrun. reflexivity.
  - destruct (main_run_reset db db_models subprocess_run b w)
      as (a & w1 & Hmain).
    rewrite Hmain.
    assert (Hmig : existsb (is_run migrate_cmd) (migration_events a) = true)
      by reflexivity.
    destruct (status_outcome a) as [[]|e|c];
      cbn [prefixed trace_of]; rewrite !existsb_app, Hmig;
      rewrite ?orb_true_r; reflexivity.
Qed.

(** C1, as the code has it. With --skip-drop the table-drop step and the
    migration step are both skipped: no statement is executed, the
    migration subprocess is not invoked, and the first call the script
    makes is the seed subprocess. *)
Theorem skip_drop_goes_straight_to_seed (b : bool) (w : W) :
  let t := trace_of (main db db_models subprocess_run
         {| with_test_data := b; skip_drop := true |} w) in
  existsb is_execute t = false
  /\ existsb (is_run migrate_cmd) t = false
  /\ exists a rest, calls t = RunCmd seed_cmd a :: rest.
Proof.
  cbv zeta. rewrite main_run_skip_drop. cbn [prefixed trace_of].
  set (args := {| with_test_data := b; skip_drop := true |}).
  pose proof (after_reset_emits db db_models subprocess_run args w) as Hall.
  split; [|split].
  - rewrite existsb_app. cbn [banner existsb is_execute orb].
    revert Hall. apply forallb_existsb_false.
    intros [] H; try discriminate H; reflexivity.
  - rewrite existsb_app. cbn [banner existsb is_run orb].
    revert Hall. apply forallb_existsb_false.
    intros [] H; try discriminate H; try reflexivity.
    cbn in H |- *. unfold list_string_eqb in *.
    destruct (list_eq_dec string_dec cmd seed_cmd) as [->|]; [|discriminate H].
    reflexivity.
  - clear Hall.
    destruct (after_reset_run db db_models subprocess_run args w)
      as (a & w1 & Hrun).
    rewrite Hrun. unfold calls. rewrite filter_app.
    destruct (status_outcome a) as [[]|e|c];
      cbn [prefixed trace_of]; try rewrite filter_app;
      destruct a as [e'|r]; cbn [seed_events];
      try destruct (returncode r =? 0)%Z; cbn; eauto.
Qed.
End CommandLine.

(** ** Concrete runs *)

(** With --skip-drop the seed subprocess is invoked and the migration
    subprocess is not. *)
Lemma skip_drop_skips_migration :
  let t := trace_of (sample_run 22 (completed 0 "" "")
                                (completed 0 "22/22 instruments loaded" "")
                                {| with_test_data := false;
                                   skip_drop := true |}) in
  existsb (is_run seed_cmd) t = true /\ ~ migration_precedes_seed t.
Proof.
  cbv zeta. split; [reflexivity|].
  intros (pre & am & mid & sd & post & H).
  apply (f_equal (existsb (is_run migrate_cmd))) in H.
  rewrite existsb_app in H. cbn [existsb] in H.
  replace (is_run migrate_cmd (RunCmd migrate_cmd am)) with true in H
    by reflexivity.
  rewrite orb_true_l, orb_true_r in H.
  vm_compute in H. discriminate H.
Qed.

Section MigrationFailure.
Context {W : Type}.
Variable db : DataAPIClient W.
Variable db_models : Database W.
Variable subprocess_run : Subprocess W.

Lemma reset_part_answer (w : W) (a : exn + CompletedProcess)
      (r : CompletedProcess) :
  In (RunCmd migrate_cmd (inr r))
     (banner ++ trace_of (drop_all_tables db w) ++ migration_events a) ->
  a = inr r.
Proof.
  intros H. apply in_app_or in H as [H|H].
  - destruct H as [H|[H|[]]]; discriminate H.
  - apply in_app_or in H as [H|H].
    + exfalso. apply (in_forallb_contra _ _ _ (drop_all_tables_emits db w) H).
      reflexivity.
    + destruct H as [H|[H|H]]; [discriminate H | congruence |].
      exfalso. destruct a as [e|r0]; [destruct H|].
      destruct (returncode r0 =? 0)%Z;
        repeat (destruct H as [H|H]; [discriminate H|]); destruct H.
Qed.

Lemma after_reset_no_migration (args : Args) (w : W)
      (a : exn + CompletedProcess) :
  ~ In (RunCmd migrate_cmd a)
       (trace_of (after_reset db db_models subprocess_run args w)).
Proof.
  intros H.
  apply (in_forallb_contra _ _ _
           (after_reset_emits db db_models subprocess_run args w) H).
  reflexivity.
Qed.

(** C2. Without --skip-drop, when the migration subprocess returns a
    non-zero exit status, the last two lines printed are the failure line
    and the text the subprocess wrote to its standard error, character for
    character (an empty line when nothing was captured); the script exits
    with status 1, and neither the seed subprocess nor any call of the
    test-fixture step nor any verification query is made. *)
Theorem migration_failure_is_fatal (b : bool) (w : W) (r : CompletedProcess) :
  let res := main db db_models subprocess_run
                  {| with_test_data := b; skip_drop := false |} w in
  In (RunCmd migrate_cmd (inr r)) (trace_of res) ->
  returncode r <> 0%Z ->
  (exists pre,
      trace_of res
      = pre ++ [Print "❌ Migration failed!";
                Print (match stderr r with Some text => text | None => "" end)])
  /\ outcome_of res = Exited 1
  /\ exit_status (outcome_of res) = 1%Z
  /\ existsb (is_run seed_cmd) (trace_of res) = false
  /\ existsb is_repository (trace_of res) = false
  /\ existsb is_query (trace_of res) = false.
Proof.
  cbv zeta.
  destruct (main_run_reset db db_models subprocess_run b w)
    as (a & w1 & Hmain).
  rewrite Hmain. clear Hmain. intros Hin Hrc.
  assert (Ha : a = inr r).
  { destruct (status_outcome a) as [[]|e|c]; cbn [prefixed trace_of] in Hin.
    - apply in_app_or in Hin as [Hin|Hin].
      + eapply reset_part_answer; eassumption.
      + exfalso. eapply after_reset_no_migration; eassumption.
    - eapply reset_part_answer; eassumption.
    - eapply reset_part_answer; eassumption. }
  subst a. clear Hin. unfold status_outcome, migration_events.
  apply Z.eqb_neq in Hrc. rewrite Hrc. cbn [trace_of outcome_of exit_status].
  split; [|split; [|split; [|split; [|split]]]]; try reflexivity.
  - exists (banner ++ trace_of (drop_all_tables db w)
                   ++ [Print (nl ++ "📝 Running migrations...");
                       RunCmd migrate_cmd (inr r)]).
    rewrite <- !app_assoc. reflexivity.
  - rewrite !existsb_app. cbn [banner existsb is_run orb].
    rewrite (emits_absent (drop_all_tables_emits db)); [reflexivity|].
    intros [] H; try discriminate H; reflexivity.
  - rewrite !existsb_app. cbn [banner existsb is_repository orb].
    rewrite (emits_absent (drop_all_tables_emits db)); [reflexivity|].
    intros [] H; try discriminate H; reflexivity.
  - rewrite !existsb_app. cbn [banner existsb is_query orb].
    rewrite (emits_absent (drop_all_tables_emits db)); [reflexivity|].
    intros [] H; try discriminate H; reflexivity.
Qed.
End MigrationFailure.

Lemma migration_failure_is_fatal_witness :
  let r := completed 2 "" "relation users already exists" in
  let res := sample_run 0 r (completed 0 "" "")
                        {| with_test_data := true; skip_drop := false |} in
  (In (RunCmd migrate_cmd (inr r)) (trace_of res) /\ returncode r <> 0%Z)
  /\ (exists pre,
         trace_of res = pre ++ [Print "❌ Migration failed!";
                                Print "relation users already exists"])
  /\ outcome_of res = Exited 1
  /\ existsb (is_run seed_cmd) (trace_of res) = false.
Proof.
  cbv zeta.
  assert (Hin : In (RunCmd migrate_cmd
                           (inr (completed 2 "" "relation users already exists")))
                   (trace_of (sample_run 0
                      (completed 2 "" "relation users already exists")
                      (completed 0 "" "")
                      {| with_test_data := true; skip_drop := false |}))).
  { vm_compute. tauto. }
  assert (Hrc : returncode (completed 2 "" "relation users already exists")
                <> 0%Z) by discriminate.
  split; [split; assumption|].
  pose proof (migration_failure_is_fatal
                (counting_client Store 0) mem_models
                (scripted_shell Store
                   (completed 2 "" "relation users already exists")
                   (completed 0 "" ""))
                true empty_store
                (completed 2 "" "relation users already exists") Hin Hrc)
    as (Hlast & Hout & _ & Hseed & _).
  split; [exact Hlast|]. split; assumption.
Defined.

(** ** The run of [main] in terms of the answers of the two subprocesses *)

Section MainRun.
Context {W : Type}.
Variable db : DataAPIClient W.
Variable db_models : Database W.
Variable subprocess_run : Subprocess W.

Lemma main_run (args : Args) (w : W) :
  exists (am : option (exn + CompletedProcess))
         (sd : exn + CompletedProcess) (w1 w2 : W),
    (am = None <-> skip_drop args = true)
    /\ main db db_models subprocess_run args w
       = continue_with
           (banner ++ reset_events (trace_of (drop_all_tables db w)) am)
           (reset_outcome am) w1
           (fun w1 =>
              continue_with (seed_events sd) (status_outcome sd) w2
                            (after_seed db db_models args)).
Proof.
  destruct args as [b [|]].
  - destruct (after_reset_run db db_models subprocess_run
                {| with_test_data := b; skip_drop := true |} w)
      as (sd & w2 & Hseed).
    exists None, sd, w, w2. split; [tauto|].
    rewrite main_run_skip_drop, Hseed.
    unfold continue_with, reset_events, reset_outcome.
    rewrite app_nil_r.
    destruct (status_outcome sd) as [[]|e|c]; reflexivity.
  - destruct (main_run_reset db db_models subprocess_run b w)
      as (am & w1 & Hmain).
    destruct (after_reset_run db db_models subprocess_run
                {| with_test_data := b; skip_drop := false |} w1)
      as (sd & w2 & Hseed).
    exists (Some am), sd, w1, w2.
    split; [split; discriminate|].
    rewrite Hmain. unfold continue_with, reset_events, reset_outcome.
    destruct (status_outcome am) as [[]|e|c]; try reflexivity.
    rewrite Hseed.
    destruct (status_outcome sd) as [[]|e|c]; reflexivity.
Qed.

Lemma drop_trace_quiet (w : W) (q : event -> bool) :
  (forall ev, is_print ev || is_execute ev = true -> q ev = false) ->
  existsb q (trace_of (drop_all_tables db w)) = false.
Proof. intros H. apply (emits_absent (drop_all_tables_emits db) H). Qed.

Lemma after_seed_quiet (args : Args) (w : W) (q : event -> bool) :
  (forall ev, is_print ev || is_repository ev || is_query ev = true ->
              q ev = false) ->
  existsb q (trace_of (after_seed db db_models args w)) = false.
Proof.
  intros H. apply (emits_absent (after_seed_emits db db_models args) H).
Qed.
End MainRun.

Ltac by_kind := intros [] H; try discriminate H; reflexivity.

(** ** Substrings *)




(** ** The seed step and the exit status *)


Section SeedStep.
Context {W : Type}.
Variable db : DataAPIClient W.
Variable db_models : Database W.
Variable subprocess_run : Subprocess W.

Lemma reset_part_no_seed (w : W) (am : option (exn + CompletedProcess))
      (x : exn + CompletedProcess) :
  ~ In (RunCmd seed_cmd x)
       (banner ++ reset_events (trace_of (drop_all_tables db w)) am).
Proof.
  intros H. apply in_app_or in H as [H|H].
  - destruct H as [H|[H|[]]]; discriminate H.
  - destruct am as [a|]; [|destruct H]. cbn [reset_events] in H.
    apply in_app_or in H as [H|H].
    + apply (in_forallb_contra _ _ _ (drop_all_tables_emits db w) H).
      reflexivity.
    + destruct H as [H|[H|H]]; [discriminate H | discriminate H |].
      destruct a as [e|r0]; [destruct H|].
      destruct (returncode r0 =? 0)%Z;
        repeat (destruct H as [H|H]; [discriminate H|]); destruct H.
Qed.

Lemma seed_events_answer (sd : exn + CompletedProcess) (r : CompletedProcess) :
  In (RunCmd seed_cmd (inr r)) (seed_events sd) -> sd = inr r.
Proof.
  intros [H|[H|H]]; [discriminate H | congruence |].
  exfalso. destruct sd as [e|r0]; [destruct H|].
  destruct (returncode r0 =? 0)%Z;
    repeat (destruct H as [H|H]; [discriminate H|]); destruct H.
Qed.

Lemma after_seed_no_subprocess (args : Args) (w : W) (c : list string)
      (x : exn + CompletedProcess) :
  ~ In (RunCmd c x) (trace_of (after_seed db db_models args w)).
Proof.
  intros H.
  apply (in_forallb_contra _ _ _ (after_seed_emits db db_models args w) H).
  reflexivity.
Qed.

(** When the seed subprocess returned [r], the reset part ended normally and
    the run goes on as [r] decides. *)
Lemma main_run_seed (args : Args) (w : W) (r : CompletedProcess) :
  In (RunCmd seed_cmd (inr r))
     (trace_of (main db db_models subprocess_run args w)) ->
  exists am w2,
    reset_outcome am = Normal tt
    /\ main db db_models subprocess_run args w
       = continue_with
           ((banner ++ reset_events (trace_of (drop_all_tables db w)) am)
              ++ seed_events (inr r))
           (status_outcome (inr r)) w2 (after_seed db db_models args).
Proof.
  destruct (main_run db db_models subprocess_run args w)
    as (am & sd & w1 & w2 & _ & Hmain).
  rewrite Hmain. clear Hmain. unfold continue_with at 1.
  destruct (reset_outcome am) as [[]|e|c] eqn:Ham;
    cbn [prefixed trace_of]; intros Hin;
    try (exfalso; eapply reset_part_no_seed; eassumption).
  apply in_app_or in Hin as [Hin|Hin];
    [exfalso; eapply reset_part_no_seed; eassumption|].
  assert (Hsd : sd = inr r).
  { unfold continue_with in Hin.
    destruct (status_outcome sd) as [[]|e|c]; cbn [prefixed trace_of] in Hin;
      try (apply seed_events_answer; assumption).
    apply in_app_or in Hin as [Hin|Hin];
      [apply seed_events_answer; assumption|].
    exfalso. eapply after_seed_no_subprocess; eassumption. }
  subst sd. exists am, w2. split; [exact Ham|].
  unfold continue_with, prefixed.
  destruct (status_outcome (inr r)) as [[]|e|c];
    cbn [trace_of world_of outcome_of]; rewrite <- ?app_assoc; reflexivity.
Qed.
End SeedStep.

Section ExitStatus.
Context {W : Type}.
Variable db : DataAPIClient W.
Variable db_models : Database W.
Variable subprocess_run : Subprocess W.

Lemma main_exits_iff_nonzero (args : Args) (w : W) :
  let res := main db db_models subprocess_run args w in
  (forall c, outcome_of res = Exited c -> c = 1%Z)
  /\ (outcome_of res = Exited 1
      <-> existsb returned_nonzero (trace_of res) = true).
Proof.
  cbv zeta.
  destruct (main_run db db_models subprocess_run args w)
    as (am & sd & w1 & w2 & _ & Hmain).
  rewrite Hmain. clear Hmain.
  pose proof (after_seed_never_exits db db_models args w2) as Hnever.
  assert (Hquiet : existsb returned_nonzero
                     (trace_of (after_seed db db_models args w2)) = false)
    by (apply after_seed_quiet; by_kind).
  assert (Hdrop : existsb returned_nonzero
                     (trace_of (drop_all_tables db w)) = false)
    by (apply drop_trace_quiet; by_kind).
  destruct am as [[e|rm]|]; destruct sd as [e'|rs];
    unfold continue_with, reset_outcome, reset_events, status_outcome,
           migration_events, seed_events, prefixed;
    try destruct (returncode rm =? 0)%Z eqn:Hrm;
    try destruct (returncode rs =? 0)%Z eqn:Hrs;
    cbn [trace_of outcome_of world_of];
    rewrite ?existsb_app, ?Hdrop, ?Hquiet;
    cbn [banner existsb returned_nonzero orb app]; rewrite ?Hrm, ?Hrs;
    cbn [negb orb];
    (split; [intros c Hc; try congruence;
             try (exfalso; eapply Hnever; eassumption)
            | split; intros H; try congruence; try discriminate H;
              try (exfalso; eapply Hnever; eassumption)]).
Qed.




End ExitStatus.


(** ** The verification report *)

Section Verification.
Context {W : Type}.
Variable db : DataAPIClient W.

Lemma verify_table_run (table : string) (w : W) :
  exists a w1,
    query db (count_sql table) w = (w1, a)
    /\ verify_table db table w
       = Run w1 (verify_events table a) (verify_outcome a).
Proof.
  unfold verify_table, bind, db_query, call, getitem, print, ret, raise.
  fold (count_sql table).
  destruct (query db (count_sql table) w) as [w1 [e|rows]].
  - exists (inl e), w1. split; reflexivity.
  - exists (inr rows), w1. split; [reflexivity|].
    unfold verify_events, verify_outcome, count_of, count_line.
    destruct rows as [|row rows]; [reflexivity|].
    destruct (dict_get row "count"); reflexivity.
Qed.

Lemma verify_loop_run (ts : list string) :
  forall w : W,
  exists (answers : list (exn + list dict)) (w' : W),
    for_each ts (verify_table db) w
    = Run w' (report_events ts answers) (report_outcome answers)
    /\ List.length answers <= List.length ts
    /\ (report_outcome answers = Normal tt ->
        List.length answers = List.length ts
        /\ forallb answered answers = true).
Proof.
  induction ts as [|t ts IH]; intros w.
  - exists [], w. repeat split; reflexivity.
  - cbn [for_each]. rewrite bind_run.
    destruct (verify_table_run t w) as (a & w1 & _ & Hrun). rewrite Hrun.
    cbn [outcome_of trace_of world_of].
    destruct (answered a) eqn:Ha.
    + destruct (IH w1) as (answers & w' & Hrest & Hlen & Hall).
      exists (a :: answers), w'.
      assert (Hout : verify_outcome a = Normal tt).
      { destruct a as [e|rows]; [discriminate Ha|].
        unfold verify_outcome. cbn [answered] in Ha.
        destruct (count_of rows); [reflexivity | discriminate Ha]. }
      rewrite Hout, Hrest. cbn [outcome_of trace_of world_of report_outcome].
      rewrite Ha. split; [reflexivity|]. split; [simpl; lia|].
      intros H. destruct (Hall H) as [Hl Hf]. cbn [forallb].
      rewrite Ha, Hf. split; [simpl; congruence | reflexivity].
    + exists [a], w1.
      assert (Hout : verify_outcome a <> Normal tt).
      { destruct a as [e|rows]; [discriminate|].
        unfold verify_outcome. cbn [answered] in Ha.
        destruct (count_of rows); [discriminate Ha | discriminate]. }
      cbn [report_outcome]. rewrite Ha.
      split; [|split; [simpl; lia | intros H; contradiction]].
      unfold report_events. cbn [combine flat_map].
      assert (Hnil : combine ts (@nil (exn + list dict)) = [])
        by (destruct ts; reflexivity).
      rewrite Hnil. cbn [flat_map]. rewrite app_nil_r.
      destruct (verify_outcome a) as [[]|e|c]; [contradiction Hout| |];
        reflexivity.
Qed.

Lemma final_verification_run (w : W) :
  exists (answers : list (exn + list dict)) (w' : W),
    final_verification db w
    = Run w' (Print (nl ++ "🔍 Final verification...")
              :: report_events tables answers)
          (report_outcome answers)
    /\ List.length answers <= 5
    /\ (report_outcome answers = Normal tt ->
        List.length answers = 5%nat /\ forallb answered answers = true).
Proof.
  unfold final_verification. cbv zeta. fold tables.
  destruct (verify_loop_run tables w) as (answers & w' & Hrun & Hlen & Hall).
  exists answers, w'. rewrite bind_run.
  cbn [print outcome_of trace_of world_of]. rewrite Hrun.
  split; [reflexivity|]. split; assumption.
Qed.
(** What follows a count query in the report, by its answer. *)
Lemma verify_loop_answer (ts : list string) :
  forall (w : W) (pre post : list event) (sql : string)
         (a : exn + list dict),
    trace_of (for_each ts (verify_table db) w) = pre ++ Query sql a :: post ->
    exists table,
      In table ts /\ sql = count_sql table
      /\ match a with
         | inl e =>
             post = []
             /\ outcome_of (for_each ts (verify_table db) w) = Raised e
         | inr rows =>
             match count_of rows with
             | Some c => exists post', post = Print (count_line table c) :: post'
             | None =>
                 post = []
                 /\ outcome_of (for_each ts (verify_table db) w)
                    = Raised (KeyError "count")
             end
         end.
Proof.
  induction ts as [|t ts IH]; intros w pre post sql a H.
  - destruct pre; discriminate H.
  - cbn [for_each] in *. rewrite bind_run in *.
    destruct (verify_table_run t w) as (a0 & w1 & _ & Hrun).
    rewrite Hrun in *. cbn [trace_of outcome_of world_of] in *.
    unfold verify_outcome, verify_events in *.
    destruct a0 as [e0|rows0].
    + cbn [trace_of outcome_of] in *.
      destruct pre as [|ev1 pre]; [|destruct pre; discriminate H].
      injection H as <- <- <-. exists t.
      split; [left; reflexivity|]. split; [reflexivity|]. split; reflexivity.
    + destruct (count_of rows0) as [c|] eqn:Hc; cbn [trace_of outcome_of] in *.
      * destruct pre as [|ev1 pre].
        -- injection H as <- <- <-. exists t.
           split; [left; reflexivity|]. split; [reflexivity|].
           rewrite Hc. eexists. reflexivity.
        -- injection H as _ H. destruct pre as [|ev2 pre]; [discriminate H|].
           injection H as _ H.
           destruct (IH _ _ _ _ _ H) as (table & Hin & Hsql & Hcase).
           exists table. split; [right; exact Hin|]. split; [exact Hsql|].
           exact Hcase.
      * destruct pre as [|ev1 pre]; [|destruct pre; discriminate H].
        injection H as <- <- <-. exists t.
        split; [left; reflexivity|]. split; [reflexivity|].
        rewrite Hc. split; reflexivity.
Qed.

Lemma final_verification_answer (w : W) (pre post : list event)
      (sql : string) (a : exn + list dict) :
  trace_of (final_verification db w) = pre ++ Query sql a :: post ->
  exists table,
    In table tables /\ sql = count_sql table
    /\ match a with
       | inl e =>
           post = [] /\ outcome_of (final_verification db w) = Raised e
       | inr rows =>
           match count_of rows with
           | Some c => exists post', post = Print (count_line table c) :: post'
           | None =>
               post = []
               /\ outcome_of (final_verification db w) = Raised (KeyError "count")
           end
       end.
Proof.
  unfold final_verification. cbv zeta. rewrite bind_run.
  cbn [print trace_of outcome_of world_of app]. intros H.
  destruct pre as [|ev1 pre]; [discriminate H|]. injection H as _ H.
  exact (verify_loop_answer tables w pre post sql a H).
Qed.
End Verification.





(** An empty answer inside a report is followed by the line that counts
    zero records. *)
Lemma report_events_empty_answer (ts : list string) :
  forall (answers : list (exn + list dict)) (pre post : list event)
         (sql : string),
    report_events ts answers = pre ++ Query sql (inr []) :: post ->
    exists table post',
      In table ts /\ sql = count_sql table
      /\ post = Print (count_line table (VInt 0)) :: post'.
Proof.
  induction ts as [|t ts IH]; intros answers pre post sql H.
  - destruct pre; discriminate H.
  - destruct answers as [|a answers]; [destruct pre; discriminate H|].
    unfold report_events in H. cbn [combine flat_map] in H.
    fold (report_events ts answers) in H.
    destruct pre as [|ev pre].
    + injection H as Hsql Ha Hpost. subst a.
      exists t. eexists. split; [left; reflexivity|].
      split; [symmetry; exact Hsql|]. rewrite <- Hpost. reflexivity.
    + cbn [verify_events app] in H. injection H as Hev H.
      assert (Hrest : exists pre', report_events ts answers
                                   = pre' ++ Query sql (inr []) :: post).
      { destruct a as [e|rows]; [exists pre; exact H|].
        destruct (count_of rows); [|exists pre; exact H].
        destruct pre as [|ev' pre]; [discriminate H|].
        injection H as _ H. exists pre. exact H. }
      destruct Hrest as [pre' Hrest].
      destruct (IH _ _ _ _ Hrest) as (table & post' & Hin & Hsql & Hpost).
      exists table, post'. split; [right; exact Hin|]. split; assumption.
Qed.


Section VerificationClaims.
Context {W : Type}.
Variable db : DataAPIClient W.

(** C9. In the verification report, when the query for a table answers an
    empty row list, the script does not touch a first row: the next thing
    it does is print that the table has 0 records. *)
Theorem empty_result_counts_zero (w : W) (pre post : list event)
        (sql : string) :
  trace_of (final_verification db w) = pre ++ Query sql (inr []) :: post ->
  exists table post',
    In table ["users"; "instruments"; "accounts"; "positions"; "jobs"]
    /\ sql = ("SELECT COUNT(*) as count FROM " ++ table)%string
    /\ post = Print ("   • " ++ table ++ ": 0 records") :: post'.
Proof.
  destruct (final_verification_run db w) as (answers & w' & Hrun & _).
  rewrite Hrun. cbn [trace_of]. intros H.
  destruct pre as [|ev pre]; [discriminate H|].
  injection H as _ H.
  apply report_events_empty_answer in H.
  exact H.
Qed.
End VerificationClaims.

Lemma empty_result_counts_zero_witness :
  exists post',
    trace_of (final_verification (empty_client Store) empty_store)
    = [ Print (nl ++ "🔍 Final verification...");
        Query "SELECT COUNT(*) as count FROM users" (inr []);
        Print "   • users: 0 records" ] ++ post'.
Proof.
  assert (H : trace_of (final_verification (empty_client Store) empty_store)
              = [Print (nl ++ "🔍 Final verification...")]
                  ++ Query "SELECT COUNT(*) as count FROM users" (inr [])
                  :: skipn 2 (trace_of (final_verification
                                          (empty_client Store) empty_store)))
    by (vm_compute; reflexivity).
  destruct (empty_result_counts_zero _ _ _ _ _ H)
    as (table & post' & _ & Hsql & Hpost).
  exists post'. rewrite H, Hpost.
  injection Hsql as <-. reflexivity.
Defined.

(** ** Runs in which nothing goes wrong *)

Section Completes.
Context {W : Type}.

Lemma completes_ret {A} (a : A) : completes (@ret W A a).
Proof. intros w _. exists a. reflexivity. Qed.

Lemma completes_print (line : string) : completes (@print W line).
Proof. intros w _. exists tt. reflexivity. Qed.

Lemma completes_call {R} (f : W -> W * (exn + R)) (ev : exn + R -> event) :
  (forall e, succeeded (ev (inl e)) = false) -> completes (call f ev).
Proof.
  intros Hev w. unfold call. destruct (f w) as [w1 [e|x]]; simpl.
  - rewrite Hev. discriminate.
  - intros _. exists x. reflexivity.
Qed.

Lemma completes_bind {A B} (m : M W A) (f : A -> M W B) :
  completes m -> (forall a, completes (f a)) -> completes (bind m f).
Proof.
  intros Hm Hf w. rewrite bind_run. specialize (Hm w).
  destruct (outcome_of (m w)) as [a|e|c] eqn:Ho; cbn [trace_of outcome_of].
  - rewrite forallb_app. intros H. apply andb_true_iff in H as [_ H].
    apply (Hf a). exact H.
  - intros H. destruct (Hm H) as [a Ha]. discriminate Ha.
  - intros H. destruct (Hm H) as [a Ha]. discriminate Ha.
Qed.

Lemma completes_for_each {A} (xs : list A) (body : A -> M W unit) :
  (forall x, completes (body x)) -> completes (for_each xs body).
Proof.
  intros Hb. induction xs as [|x xs IH]; simpl.
  - apply completes_ret.
  - apply completes_bind; auto.
Qed.

Lemma completes_for_fold {A S} (xs : list A) (body : A -> S -> M W S) :
  (forall x s, completes (body x s)) ->
  forall s, completes (for_fold xs s body).
Proof.
  intros Hb. induction xs as [|x xs IH]; intros s; simpl.
  - apply completes_ret.
  - apply completes_bind; auto.
Qed.
End Completes.

Ltac completes_step :=
  first
    [ apply completes_ret
    | apply completes_print
    | apply completes_call; intros ?; reflexivity
    | apply completes_bind; [| intros ?]
    | apply completes_for_each; intros ?
    | apply completes_for_fold; intros ? ?
    | match goal with
      | |- completes (match ?x with _ => _ end) => destruct x
      end ].

Ltac completes_all := repeat completes_step.

Section FullSuccess.
Context {W : Type}.
Variable db : DataAPIClient W.
Variable db_models : Database W.
Variable subprocess_run : Subprocess W.

Lemma drop_all_tables_completes : completes (drop_all_tables db).
Proof.
  intros w _.
  destruct (drop_all_tables_run db w)
    as (r1 & r2 & r3 & r4 & r5 & rf & w' & Hrun).
  rewrite Hrun. exists tt. reflexivity.
Qed.

Lemma status_outcome_completes (a : exn + CompletedProcess) (c : list string) :
  succeeded (RunCmd c a) = true -> status_outcome a = Normal tt.
Proof.
  destruct a as [e|r]; cbn [succeeded status_outcome]; [discriminate|].
  intros ->. reflexivity.
Qed.

Lemma run_migrations_completes : completes (run_migrations subprocess_run).
Proof.
  intros w. destruct (run_migrations_run subprocess_run w) as (a & w1 & Hrun).
  rewrite Hrun. cbn [trace_of outcome_of]. unfold migration_events.
  cbn [forallb succeeded andb]. intros H. apply andb_true_iff in H as [H _].
  exists tt. apply (status_outcome_completes a migrate_cmd). exact H.
Qed.

Lemma load_seed_data_completes : completes (load_seed_data subprocess_run).
Proof.
  intros w. destruct (load_seed_data_run subprocess_run w) as (a & w1 & Hrun).
  rewrite Hrun. cbn [trace_of outcome_of]. unfold seed_events.
  cbn [forallb succeeded andb]. intros H. apply andb_true_iff in H as [H _].
  exists tt. apply (status_outcome_completes a seed_cmd). exact H.
Qed.

Lemma create_test_data_completes : completes (create_test_data db_models).
Proof.
  unfold create_test_data, ensure_test_user, ensure_test_accounts,
         ensure_test_positions.
  completes_all.
Qed.

Lemma verify_table_completes (table : string) :
  completes (verify_table db table).
Proof.
  intros w. destruct (verify_table_run db table w) as (a & w1 & _ & Hrun).
  rewrite Hrun. cbn [trace_of outcome_of]. unfold verify_events.
  cbn [forallb succeeded]. intros H. apply andb_true_iff in H as [H _].
  exists tt. destruct a as [e|rows]; [discriminate H|].
  unfold verify_outcome. cbn [answered] in H.
  destruct (count_of rows); [reflexivity | discriminate H].
Qed.

Lemma final_verification_completes : completes (final_verification db).
Proof.
  unfold final_verification. cbv zeta.
  apply completes_bind; [apply completes_print | intros _].
  apply completes_for_each. apply verify_table_completes.
Qed.

Lemma closing_lines_completes (args : Args) :
  completes (@closing_lines W args).
Proof. unfold closing_lines. completes_all. Qed.

Lemma main_completes (args : Args) :
  completes (main db db_models subprocess_run args).
Proof.
  unfold main.
  apply completes_bind; [apply completes_print | intros _].
  apply completes_bind; [apply completes_print | intros _].
  apply completes_bind; [|intros _].
  { destruct (negb (skip_drop args)); [|apply completes_ret].
    apply completes_bind; [apply drop_all_tables_completes | intros _].
    apply run_migrations_completes. }
  apply completes_bind; [apply load_seed_data_completes | intros _].
  apply completes_bind; [|intros _].
  { destruct (with_test_data args);
      [apply create_test_data_completes | apply completes_ret]. }
  apply completes_bind; [apply final_verification_completes | intros _].
  apply closing_lines_completes.
Qed.
End FullSuccess.

Section ExitStatusClaim.
Context {W : Type}.
Variable db : DataAPIClient W.
Variable db_models : Database W.
Variable subprocess_run : Subprocess W.

(** C6, as the code has it. The exit status is 0 when every interaction
    succeeded.  The script leaves through sys.exit(1) exactly when the
    migration or the seed subprocess returned a non-zero exit status, and
    the exit status is then 1.  When the seed subprocess returned a
    non-zero exit status, the last two lines printed are the failure line
    and the text the subprocess wrote to its standard error, character for
    character (an empty line when nothing was captured), and neither the
    test-fixture step nor the verification step makes a call. *)
Theorem exit_status_of_main (args : Args) (w : W) :
  let res := main db db_models subprocess_run args w in
  (forallb succeeded (trace_of res) = true ->
   exit_status (outcome_of res) = 0%Z)
  /\ (outcome_of res = Exited 1
      <-> existsb returned_nonzero (trace_of res) = true)
  /\ (existsb returned_nonzero (trace_of res) = true
      -> exit_status (outcome_of res) = 1%Z)
  /\ (forall r,
        In (RunCmd seed_cmd (inr r)) (trace_of res) ->
        returncode r <> 0%Z ->
        (exists pre,
            trace_of res
            = pre ++ [Print "❌ Seed data failed!";
                      Print (match stderr r with
                             | Some text => text
                             | None => ""
                             end)])
        /\ outcome_of res = Exited 1
        /\ existsb is_repository (trace_of res) = false
        /\ existsb is_query (trace_of res) = false).
Proof.
  cbv zeta.
  destruct (main_exits_iff_nonzero db db_models subprocess_run args w)
    as [Hcode Hiff].
  cbv zeta in *.
  split; [|split; [|split]].
  - intros H.
    destruct (main_completes db db_models subprocess_run args w H) as [a Ha].
    rewrite Ha. reflexivity.
  - exact Hiff.
  - intros H. apply Hiff in H. rewrite H. reflexivity.
  - clear Hcode Hiff. intros r Hin Hrc.
    destruct (main_run_seed db db_models subprocess_run args w r Hin)
      as (am & w2 & Ham & Hmain).
    rewrite Hmain. clear Hmain Hin.
    apply Z.eqb_neq in Hrc.
    unfold status_outcome, seed_events. rewrite Hrc.
    cbn [continue_with trace_of outcome_of].
    assert (Hreset : forall q,
               (forall ev, is_print ev || is_execute ev = true -> q ev = false) ->
               (forall a, q (RunCmd migrate_cmd a) = false) ->
               existsb q (reset_events (trace_of (drop_all_tables db w)) am)
               = false).
    { intros q Hq Hm. destruct am as [a|]; [|reflexivity].
      cbn [reset_events]. rewrite existsb_app, (drop_trace_quiet db w q Hq).
      unfold migration_events. cbn [existsb orb].
      rewrite Hm, (Hq (Print _)); [|reflexivity].
      destruct a as [e|rm]; [reflexivity|].
      destruct (returncode rm =? 0)%Z; cbn [existsb];
        rewrite !(Hq (Print _)); reflexivity. }
    split; [|split; [|split]].
    + exists ((banner ++ reset_events (trace_of (drop_all_tables db w)) am)
                ++ [Print (nl ++ "🌱 Loading seed data...");
                    RunCmd seed_cmd (inr r)]).
      rewrite <- !app_assoc. reflexivity.
    + reflexivity.
    + rewrite !existsb_app, Hreset; [reflexivity | by_kind | reflexivity].
    + rewrite !existsb_app, Hreset; [reflexivity | by_kind | reflexivity].
Qed.
End ExitStatusClaim.

(** A run in which no subprocess returns a non-zero exit status and the
    exit status is 1 all the same: every call of the client raises, the
    drop step logs it, the first verification query is not guarded. *)
Lemma uncaught_error_exits_with_1 :
  let res := main (failing_client Store "connection refused") mem_models
                  (scripted_shell Store (completed 0 "" "") (completed 0 "" ""))
                  {| with_test_data := false; skip_drop := false |}
                  empty_store in
  ~ (exit_status (outcome_of res) = 1%Z
     <-> existsb returned_nonzero (trace_of res) = true).
Proof.
  cbv zeta. intros [H _].
  assert (Hfalse : exit_status
             (outcome_of
                (main (failing_client Store "connection refused") mem_models
                   (scripted_shell Store (completed 0 "" "") (completed 0 "" ""))
                   {| with_test_data := false; skip_drop := false |}
                   empty_store)) = 1%Z) by (vm_compute; reflexivity).
  specialize (H Hfalse). vm_compute in H. discriminate H.
Qed.

Lemma exit_status_of_main_witness :
  let r := completed 3 "" "seed_data.py: no such table: instruments" in
  let res := sample_run 0 (completed 0 "" "") r
                        {| with_test_data := true; skip_drop := false |} in
  (In (RunCmd seed_cmd (inr r)) (trace_of res) /\ returncode r <> 0%Z)
  /\ (exists pre,
         trace_of res
         = pre ++ [Print "❌ Seed data failed!";
                   Print "seed_data.py: no such table: instruments"])
  /\ outcome_of res = Exited 1
  /\ exit_status (outcome_of res) = 1%Z
  /\ existsb is_repository (trace_of res) = false
  /\ existsb is_query (trace_of res) = false.
Proof.
  cbv zeta.
  assert (Hin : In (RunCmd seed_cmd
                      (inr (completed 3 ""
                              "seed_data.py: no such table: instruments")))
                   (trace_of (sample_run 0 (completed 0 "" "")
                      (completed 3 "" "seed_data.py: no such table: instruments")
                      {| with_test_data := true; skip_drop := false |}))).
  { vm_compute. tauto. }
  assert (Hrc : returncode (completed 3 ""
                              "seed_data.py: no such table: instruments")
                <> 0%Z) by discriminate.
  split; [split; assumption|].
  destruct (exit_status_of_main
              (counting_client Store 0) mem_models
              (scripted_shell Store (completed 0 "" "")
                 (completed 3 "" "seed_data.py: no such table: instruments"))
              {| with_test_data := true; skip_drop := false |} empty_store)
    as (_ & _ & _ & Hseed).
  destruct (Hseed _ Hin Hrc) as (Hlast & Hout & Hrepo & Hq).
  split; [exact Hlast|]. split; [exact Hout|].
  split; [|split; assumption].
  unfold sample_run. rewrite Hout. reflexivity.
Defined.

Section VerificationOrder.
Context {W : Type}.
Variable db : DataAPIClient W.
Variable db_models : Database W.
Variable subprocess_run : Subprocess W.




End VerificationOrder.


(** ** The test fixture, for every repository *)

Ltac split_in H :=
  repeat (destruct H as [H|H]; [try discriminate H|]); try contradiction.

(** Takes the next call to the repository, in the goal or in a hypothesis,
    and splits on its answer. *)
Ltac next_repository_call :=
  match goal with
  | |- context [find_by_clerk_id ?d ?c ?w] =>
      destruct (find_by_clerk_id d c w) as [? [?|[?|]]]
  | |- context [create_user ?d ?u ?w] =>
      destruct (create_user d u w) as [? [?|[]]]
  | |- context [find_by_user ?d ?c ?w] =>
      destruct (find_by_user d c w) as [? [?|[|? ?]]]
  | |- context [create_account ?d ?c ?a ?w] =>
      destruct (create_account d c a w) as [? [?|?]]
  | |- context [find_by_account ?d ?a ?w] =>
      destruct (find_by_account d a w) as [? [?|[|? ?]]]
  | |- context [add_position ?d ?a ?s ?q ?w] =>
      destruct (add_position d a s q w) as [? [?|[]]]
  end.

(** Closes a goal about an explicit trace: splits the memberships assumed,
    drops the impossible ones and concludes by computation. *)
Ltac settle_leaf :=
  intros;
  repeat match goal with
         | H : _ \/ _ |- _ => destruct H as [H|H]; [try discriminate H|]
         | H : False |- _ => contradiction
         | H : _ = _ :> event |- _ => inversion H; clear H; subst
         end;
  first [ reflexivity
        | discriminate
        | solve [repeat (first [left; reflexivity | right])] ].

(** *** The three blocks, one by one *)

Section FixtureSteps.
Context {W : Type}.
Variable db_models : Database W.

Lemma ensure_test_user_shape (w : W) :
  let res := ensure_test_user db_models w in
  let t := trace_of res in
  forallb user_step_event t = true
  /\ (forall u,
        In (FindByClerkId "test_user_001" (inr (Some u))) t ->
        existsb is_create_user t = false
        /\ In (Print "   ℹ️  Test user already exists") t
        /\ outcome_of res = Normal tt
        /\ world_of res
           = fst (find_by_clerk_id db_models "test_user_001" w))
  /\ (In (FindByClerkId "test_user_001" (inr None)) t ->
      existsb is_create_user t = true).
Proof.
  cbv zeta. unfold ensure_test_user, model_dump. cbv zeta.
  unfold bind, call, print, ret.
  repeat (next_repository_call; cbn [trace_of outcome_of world_of app map]);
    cbn [trace_of outcome_of world_of app map In fst];
    (split; [reflexivity|split]); intros;
    repeat match goal with |- _ /\ _ => split end; settle_leaf.
Qed.

Lemma ensure_test_accounts_shape (w : W) :
  let res := ensure_test_accounts db_models w in
  let t := trace_of res in
  forallb account_step_event t = true
  /\ (forall a l,
        In (FindByUser "test_user_001" (inr (a :: l))) t ->
        existsb is_create_account t = false
        /\ In (Print ("   ℹ️  User already has "
                      ++ NilZero.string_of_int
                           (Z.to_int (Z.of_nat (List.length (a :: l))))
                      ++ " accounts")) t
        /\ outcome_of res = Normal (acc_id a :: map acc_id l)
        /\ world_of res = fst (find_by_user db_models "test_user_001" w))
  /\ (In (FindByUser "test_user_001" (inr [])) t ->
      existsb is_create_account t = true)
  /\ (forall ids,
        outcome_of res = Normal ids ->
        (exists a l,
            calls t = [FindByUser "test_user_001" (inr (a :: l))]
            /\ ids = acc_id a :: map acc_id l)
        \/ (exists id1 id2 id3,
               calls t
               = FindByUser "test_user_001" (inr [])
                 :: map (fun '(account, id) =>
                           CreateAccount "test_user_001" account (inr id))
                        (combine test_accounts [id1; id2; id3])
               /\ ids = [id1; id2; id3])).
Proof.
  cbv zeta. unfold ensure_test_accounts, test_accounts, model_dump. cbv zeta.
  cbn [for_fold]. unfold bind, call, print, ret.
  repeat (next_repository_call; cbn [trace_of outcome_of world_of app map]);
    cbn [trace_of outcome_of world_of app map In fst];
    (split; [reflexivity|split; [|split]]); intros;
    repeat match goal with |- _ /\ _ => split end;
    try solve [settle_leaf];
    try discriminate;
    match goal with
    | H : Normal _ = Normal _ |- _ => injection H as <-
    end;
    [ right; eexists _, _, _; split; reflexivity
    | left; eexists _, _; split; reflexivity ].
Qed.

Lemma ensure_test_positions_shape (first : AccountId) (rest : list AccountId)
      (w : W) :
  let res := ensure_test_positions db_models (first :: rest) w in
  let t := trace_of res in
  forallb position_step_event t = true
  /\ (forall aid found, In (FindByAccount aid found) t -> aid = first)
  /\ (forall aid p ps,
        In (FindByAccount aid (inr (p :: ps))) t ->
        existsb is_add_position t = false
        /\ outcome_of res = Normal tt
        /\ world_of res = fst (find_by_account db_models first w))
  /\ (forall aid,
        In (FindByAccount aid (inr [])) t ->
        existsb is_add_position t = true
        /\ (outcome_of res = Normal tt ->
            filter is_add_position t
            = map (fun '(symbol, quantity) =>
                     AddPosition aid symbol quantity (inr tt))
                  test_positions)).
Proof.
  cbv zeta. unfold ensure_test_positions, test_positions, model_dump. cbv zeta.
  cbn [for_each]. unfold bind, call, print, ret.
  repeat (next_repository_call; cbn [trace_of outcome_of world_of app map]);
    cbn [trace_of outcome_of world_of app map In fst
         position_account_id position_symbol position_quantity];
    (split; [reflexivity|split; [|split]]); intros;
    repeat match goal with |- _ /\ _ => split end; settle_leaf.
Qed.

(** The trace and the outcome of [create_test_data] from those of its three
    consecutive parts. *)
Lemma create_test_data_steps (w : W) :
  let user := ensure_test_user db_models w in
  let accs := ensure_test_accounts db_models (world_of user) in
  let poss := fun ids => ensure_test_positions db_models ids (world_of accs) in
  trace_of (create_test_data db_models w)
  = Print (nl ++ "👤 Creating test user and portfolio...")
    :: trace_of user
    ++ match outcome_of user with
       | Normal _ =>
           trace_of accs
           ++ match outcome_of accs with
              | Normal ids => trace_of (poss ids)
              | _ => []
              end
       | _ => []
       end
  /\ outcome_of (create_test_data db_models w)
     = match outcome_of user with
       | Normal _ =>
           match outcome_of accs with
           | Normal ids => outcome_of (poss ids)
           | Raised e => Raised e
           | Exited c => Exited c
           end
       | Raised e => Raised e
       | Exited c => Exited c
       end
  /\ world_of (create_test_data db_models w)
     = match outcome_of user with
       | Normal _ =>
           match outcome_of accs with
           | Normal ids => world_of (poss ids)
           | _ => world_of accs
           end
       | _ => world_of user
       end.
Proof.
  cbv zeta. unfold create_test_data. rewrite bind_run.
  cbn [print outcome_of trace_of world_of]. rewrite bind_run.
  destruct (outcome_of (ensure_test_user db_models w)) as [[]|e|c];
    cbn [trace_of outcome_of world_of app];
    [|rewrite app_nil_r; repeat split; reflexivity
     |rewrite app_nil_r; repeat split; reflexivity].
  rewrite bind_run.
  destruct (outcome_of (ensure_test_accounts db_models
                          (world_of (ensure_test_user db_models w))))
    as [ids|e|c]; cbn [trace_of outcome_of world_of];
    [|rewrite app_nil_r|rewrite app_nil_r]; repeat split; reflexivity.
Qed.
End FixtureSteps.

(** *** The guard on [account_ids] *)

Section AccountIds.
Context {W : Type}.
Variable db_models : Database W.

Lemma ensure_test_user_ends (w : W) :
  outcome_of (ensure_test_user db_models w) = Normal tt
  \/ (exists e, outcome_of (ensure_test_user db_models w) = Raised e)
     /\ existsb raised_before_guard (trace_of (ensure_test_user db_models w))
        = true.
Proof.
  unfold ensure_test_user, bind, call, print. cbv zeta.
  destruct (find_by_clerk_id db_models "test_user_001" w)
    as [w1 [e|[u|]]]; cbn; eauto.
  destruct (create_user db_models (model_dump test_user) w1)
    as [w2 [e|[]]]; cbn; eauto.
Qed.

Lemma ensure_test_accounts_ends (w : W) :
  (exists ids, outcome_of (ensure_test_accounts db_models w) = Normal ids
               /\ ids <> [])
  \/ (exists e, outcome_of (ensure_test_accounts db_models w) = Raised e)
     /\ existsb raised_before_guard
          (trace_of (ensure_test_accounts db_models w)) = true.
Proof.
  unfold ensure_test_accounts, bind, call, print, ret. cbv zeta.
  destruct (find_by_user db_models "test_user_001" w)
    as [w1 [e|[|a l]]]; cbn; eauto.
  - unfold bind, call, print, ret, model_dump.
    destruct (create_account db_models "test_user_001" _ w1)
      as [w2 [e|id1]]; cbn; eauto.
    destruct (create_account db_models "test_user_001" _ w2)
      as [w3 [e|id2]]; cbn; eauto.
    destruct (create_account db_models "test_user_001" _ w3)
      as [w4 [e|id3]]; cbn; eauto.
    left. eexists. split; [reflexivity | discriminate].
  - left. eexists. split; [reflexivity | discriminate].
Qed.

Lemma ensure_test_positions_starts (aid : AccountId) (rest : list AccountId)
      (w : W) :
  exists a t,
    trace_of (ensure_test_positions db_models (aid :: rest) w)
    = FindByAccount aid a :: t.
Proof.
  unfold ensure_test_positions. cbv zeta. rewrite bind_run.
  unfold call.
  destruct (find_by_account db_models aid w) as [w1 [e|rows]];
    cbn [outcome_of trace_of world_of app]; eauto.
Qed.

Lemma create_test_data_reaches_positions (w : W) :
  existsb is_find_by_account (trace_of (create_test_data db_models w)) = true
  \/ (exists e, outcome_of (create_test_data db_models w) = Raised e)
     /\ existsb raised_before_guard (trace_of (create_test_data db_models w))
        = true.
Proof.
  unfold create_test_data. rewrite bind_run.
  cbn [print outcome_of trace_of world_of].
  rewrite bind_run.
  destruct (ensure_test_user_ends w) as [Hu|[[e Hu] Hraised]];
    rewrite Hu; cbn [outcome_of trace_of world_of].
  - set (w1 := world_of (ensure_test_user db_models w)).
    rewrite bind_run.
    destruct (ensure_test_accounts_ends w1)
      as [(ids & Hids & Hne)|[[e Ha] Hraised]];
      [rewrite Hids | rewrite Ha]; cbn [outcome_of trace_of world_of].
    + destruct ids as [|aid rest]; [contradiction Hne; reflexivity|].
      destruct (ensure_test_positions_starts aid rest
                  (world_of (ensure_test_accounts db_models w1)))
        as (a & t & Ht).
      left. rewrite Ht.
      rewrite !existsb_app. cbn [existsb is_find_by_account].
      rewrite !orb_true_r. reflexivity.
    + right. split; [eauto|].
      rewrite !existsb_app, Hraised, !orb_true_r. reflexivity.
  - right. split; [eauto|].
    rewrite !existsb_app, Hraised, !orb_true_r. reflexivity.
Qed.

(** C10, as the code has it. Whenever line 133 is reached, [account_ids]
    is not empty, and it holds exactly the ids of the accounts that
    [find_by_user] listed, in that order, or, when it listed none, the three
    ids that the three calls of [create_account] returned, in the order of
    the calls.  So the guard never skips the positions block: with a
    non-empty list the first call is [find_by_account] on its first
    element.  A call of [create_test_data] that does not look up the
    positions is one that an exception of an earlier repository call has
    ended; a call that ends normally has looked them up. *)
Theorem account_ids_never_empty (w : W) :
  (forall ids,
      outcome_of (ensure_test_accounts db_models w) = Normal ids ->
      ids <> []
      /\ ((exists a l,
              calls (trace_of (ensure_test_accounts db_models w))
              = [FindByUser "test_user_001" (inr (a :: l))]
              /\ ids = acc_id a :: map acc_id l)
          \/ (exists id1 id2 id3,
                 calls (trace_of (ensure_test_accounts db_models w))
                 = FindByUser "test_user_001" (inr [])
                   :: map (fun '(account, id) =>
                             CreateAccount "test_user_001" account (inr id))
                          (combine test_accounts [id1; id2; id3])
                 /\ ids = [id1; id2; id3])))
  /\ (forall aid rest w0, exists a t,
        trace_of (ensure_test_positions db_models (aid :: rest) w0)
        = FindByAccount aid a :: t)
  /\ (existsb is_find_by_account (trace_of (create_test_data db_models w))
      = true
      \/ (exists e, outcome_of (create_test_data db_models w) = Raised e)
         /\ existsb raised_before_guard
              (trace_of (create_test_data db_models w)) = true)
  /\ (outcome_of (create_test_data db_models w) = Normal tt ->
      existsb is_find_by_account (trace_of (create_test_data db_models w))
      = true).
Proof.
  split; [|split; [|split]].
  - intros ids Hids.
    destruct (ensure_test_accounts_shape db_models w) as (_ & _ & _ & Hwhich).
    cbv zeta in Hwhich. specialize (Hwhich ids Hids). split; [|exact Hwhich].
    destruct Hwhich as [(a & l & _ & ->)|(id1 & id2 & id3 & _ & ->)];
      discriminate.
  - intros aid rest w0. apply ensure_test_positions_starts.
  - apply create_test_data_reaches_positions.
  - intros Hout.
    destruct (create_test_data_reaches_positions w)
      as [H|[[e H] _]]; [exact H | congruence].
Qed.
End AccountIds.

(** When the creation of an account raises, the exception ends
    [create_test_data] before line 133: no position is looked up. *)
Lemma failed_creation_skips_the_positions :
  let res := create_test_data accounts_refused_models empty_store in
  outcome_of res = Raised (Exception "permission denied for table accounts")
  /\ existsb is_find_by_account (trace_of res) = false
  /\ existsb is_add_position (trace_of res) = false
  /\ calls (trace_of res)
     = [ FindByClerkId "test_user_001" (inr None);
         CreateUser test_user (inr tt);
         FindByUser "test_user_001" (inr []);
         CreateAccount "test_user_001"
           {| account_name := "401(k)";
              account_purpose := "Primary retirement savings";
              cash_balance := Dec "5000";
              cash_interest := Dec "0.045" |}
           (inl (Exception "permission denied for table accounts")) ].
Proof. cbv zeta. repeat split; vm_compute; reflexivity. Qed.

Lemma account_ids_never_empty_witness :
  let found := ensure_test_accounts mem_models partial_accounts in
  let fresh := ensure_test_accounts
                 mem_models
                 (world_of (ensure_test_user mem_models empty_store)) in
  (outcome_of found = Normal [7; 9]
   /\ exists a l,
        calls (trace_of found) = [FindByUser "test_user_001" (inr (a :: l))]
        /\ [7; 9] = acc_id a :: map acc_id l)
  /\ (outcome_of fresh = Normal [1; 2; 3]
      /\ exists id1 id2 id3,
           calls (trace_of fresh)
           = FindByUser "test_user_001" (inr [])
             :: map (fun '(account, id) =>
                       CreateAccount "test_user_001" account (inr id))
                    (combine test_accounts [id1; id2; id3])
           /\ [1; 2; 3] = [id1; id2; id3])
  /\ existsb is_find_by_account
       (trace_of (create_test_data mem_models empty_store)) = true.
Proof.
  cbv zeta.
  assert (Hfound : outcome_of (ensure_test_accounts mem_models partial_accounts)
                   = Normal [7; 9]) by reflexivity.
  assert (Hfresh : outcome_of (ensure_test_accounts mem_models
                     (world_of (ensure_test_user mem_models empty_store)))
                   = Normal [1; 2; 3]) by reflexivity.
  assert (Hout : outcome_of (create_test_data mem_models empty_store)
                 = Normal tt) by reflexivity.
  destruct (account_ids_never_empty mem_models partial_accounts)
    as (Hone & _).
  destruct (account_ids_never_empty mem_models
              (world_of (ensure_test_user mem_models empty_store)))
    as (Htwo & _).
  destruct (account_ids_never_empty mem_models empty_store)
    as (_ & _ & _ & Hreach).
  split; [|split; [|exact (Hreach Hout)]].
  - split; [exact Hfound|].
    destruct (Hone _ Hfound) as [_ [H|(id1 & id2 & id3 & H & _)]];
      [exact H | vm_compute in H; discriminate H].
  - split; [exact Hfresh|].
    destruct (Htwo _ Hfresh) as [_ [(a & l & H & _)|H]];
      [vm_compute in H; discriminate H | exact H].
Defined.

Section FreshFixture.
Context {W : Type}.
Variable db_models : Database W.

(** C7. On a database in which test_user_001 is not found, the user has no
    accounts and the account looked up has no positions, a call of
    [create_test_data] that ends normally has asked for exactly these rows,
    in this order: the user test_user_001, the accounts 401(k), Roth IRA
    and Taxable Brokerage of that user, and the positions SPY 100, QQQ 50,
    BND 200, VEA 150 and GLD 25, all five under the identifier returned for
    the first account created. *)
Theorem fresh_fixture_is_fixed (w : W) :
  let res := create_test_data db_models w in
  In (FindByClerkId "test_user_001" (inr None)) (trace_of res) ->
  In (FindByUser "test_user_001" (inr [])) (trace_of res) ->
  (forall aid a, In (FindByAccount aid a) (trace_of res) -> a = inr []) ->
  outcome_of res = Normal tt ->
  exists id1 id2 id3 : AccountId,
    creations (trace_of res)
    = [ CreateUser {| clerk_user_id := "test_user_001";
                      display_name := "Test User";
                      years_until_retirement := 25;
                      target_retirement_income := Dec "100000" |} (inr tt);
        CreateAccount "test_user_001"
          {| account_name := "401(k)";
             account_purpose := "Primary retirement savings";
             cash_balance := Dec "5000";
             cash_interest := Dec "0.045" |} (inr id1);
        CreateAccount "test_user_001"
          {| account_name := "Roth IRA";
             account_purpose := "Tax-free retirement savings";
             cash_balance := Dec "1000";
             cash_interest := Dec "0.04" |} (inr id2);
        CreateAccount "test_user_001"
          {| account_name := "Taxable Brokerage";
             account_purpose := "General investment account";
             cash_balance := Dec "2500";
             cash_interest := Dec "0.035" |} (inr id3);
        AddPosition id1 "SPY" (Dec "100") (inr tt);
        AddPosition id1 "QQQ" (Dec "50") (inr tt);
        AddPosition id1 "BND" (Dec "200") (inr tt);
        AddPosition id1 "VEA" (Dec "150") (inr tt);
        AddPosition id1 "GLD" (Dec "25") (inr tt) ].
Proof.
  cbv zeta.
  unfold create_test_data, ensure_test_user, ensure_test_accounts,
         ensure_test_positions, test_accounts, test_positions, model_dump.
  cbv zeta. cbn [for_fold for_each].
  unfold bind, call, print, ret.
  repeat (next_repository_call; cbn [trace_of outcome_of world_of app map]);
    cbn; intros Huser Haccs Hpos Hout; try discriminate Hout.
  all: try (exfalso; split_in Huser; fail).
  all: try (exfalso; split_in Haccs; fail).
  all: try (exfalso;
            match goal with
            | H : forall aid a, _ -> a = inr [] |- _ =>
                match type of H with
                | context [FindByAccount ?i (inr (?p :: ?ps))] =>
                    specialize (H i (inr (p :: ps)));
                    assert (Hin : inr (p :: ps)
                                  = (inr [] : exn + list PositionCreate))
                      by (apply H;
                          repeat (first [left; reflexivity | right]));
                    discriminate Hin
                end
            end).
  eexists _, _, _. reflexivity.
Qed.
End FreshFixture.

Lemma fresh_fixture_is_fixed_witness :
  let res := create_test_data mem_models empty_store in
  (In (FindByClerkId "test_user_001" (inr None)) (trace_of res)
   /\ In (FindByUser "test_user_001" (inr [])) (trace_of res)
   /\ outcome_of res = Normal tt)
  /\ List.length (creations (trace_of res)) = 9%nat
  /\ row_counts (world_of res) = (1, 3, 5)%nat.
Proof.
  cbv zeta.
  assert (Huser : In (FindByClerkId "test_user_001" (inr None))
                     (trace_of (create_test_data mem_models empty_store)))
    by (vm_compute; tauto).
  assert (Haccs : In (FindByUser "test_user_001" (inr []))
                     (trace_of (create_test_data mem_models empty_store)))
    by (vm_compute; tauto).
  assert (Hpos : forall aid a,
             In (FindByAccount aid a)
                (trace_of (create_test_data mem_models empty_store)) ->
             a = inr []).
  { intros aid a H. vm_compute in H. split_in H. congruence. }
  assert (Hout : outcome_of (create_test_data mem_models empty_store)
                 = Normal tt) by reflexivity.
  split; [repeat split; assumption|].
  destruct (fresh_fixture_is_fixed mem_models empty_store
              Huser Haccs Hpos Hout) as (id1 & id2 & id3 & Hcre).
  split; [rewrite Hcre; reflexivity | reflexivity].
Defined.

(** ** A run of the test fixture, block by block *)

Lemma creations_app (t1 t2 : list event) :
  creations (t1 ++ t2) = creations t1 ++ creations t2.
Proof. apply filter_app. Qed.

Lemma in_fixture_steps (ev : event) (tu ta tp : list event) :
  forallb user_step_event tu = true ->
  forallb account_step_event ta = true ->
  forallb position_step_event tp = true ->
  In ev (tu ++ ta ++ tp) ->
  (user_step_event ev = true /\ In ev tu)
  \/ (account_step_event ev = true /\ In ev ta)
  \/ (position_step_event ev = true /\ In ev tp).
Proof.
  intros Hu Ha Hp H. rewrite forallb_forall in Hu, Ha, Hp.
  apply in_app_or in H as [H|H]; [left; auto|].
  apply in_app_or in H as [H|H]; [right; left; auto | right; right; auto].
Qed.

Lemma no_creation (k q : event -> bool) (l : list event) :
  (forall ev, k ev = true -> is_creation ev = true -> q ev = true) ->
  forallb k l = true -> existsb q l = false -> creations l = [].
Proof.
  intros Hk. induction l as [|ev l IH]; [reflexivity|].
  cbn [forallb existsb creations filter]. intros Hall Hnone.
  apply andb_true_iff in Hall as [Hev Hall].
  apply orb_false_iff in Hnone as [Hq Hnone].
  destruct (is_creation ev) eqn:Hc.
  - rewrite (Hk ev Hev Hc) in Hq. discriminate Hq.
  - apply IH; assumption.
Qed.

Ltac other_step :=
  let H := fresh in
  intros [] H; try discriminate H; try reflexivity; intros; reflexivity.

Section FixtureRuns.
Context {W : Type}.
Variable db_models : Database W.

(** The three parts of a run of [create_test_data]: each part holds the
    events of one block, a lookup that found something keeps its block from
    creating, and the positions are looked up under the first account id. *)
Lemma create_test_data_parts (w : W) :
  let res := create_test_data db_models w in
  exists tu ta tp,
    trace_of res
    = Print (nl ++ "👤 Creating test user and portfolio...")
      :: tu ++ ta ++ tp
    /\ (forallb user_step_event tu = true
        /\ forallb account_step_event ta = true
        /\ forallb position_step_event tp = true)
    /\ (forall u,
          In (FindByClerkId "test_user_001" (inr (Some u))) tu ->
          existsb is_create_user tu = false
          /\ In (Print "   ℹ️  Test user already exists") tu)
    /\ (In (FindByClerkId "test_user_001" (inr None)) tu ->
        existsb is_create_user tu = true)
    /\ (forall a l,
          In (FindByUser "test_user_001" (inr (a :: l))) ta ->
          existsb is_create_account ta = false
          /\ In (Print ("   ℹ️  User already has "
                        ++ NilZero.string_of_int
                             (Z.to_int (Z.of_nat (List.length (a :: l))))
                        ++ " accounts")) ta
          /\ forall aid found, In (FindByAccount aid found) tp ->
                               aid = acc_id a)
    /\ (In (FindByUser "test_user_001" (inr [])) ta ->
        existsb is_create_account ta = true)
    /\ (forall aid p ps,
          In (FindByAccount aid (inr (p :: ps))) tp ->
          existsb is_add_position tp = false /\ outcome_of res = Normal tt)
    /\ (forall aid,
          In (FindByAccount aid (inr [])) tp ->
          existsb is_add_position tp = true
          /\ (outcome_of res = Normal tt ->
              filter is_add_position tp
              = map (fun '(symbol, quantity) =>
                       AddPosition aid symbol quantity (inr tt))
                    test_positions))
    /\ (forall u a l aid p ps,
          In (FindByClerkId "test_user_001" (inr (Some u))) tu ->
          In (FindByUser "test_user_001" (inr (a :: l))) ta ->
          In (FindByAccount aid (inr (p :: ps))) tp ->
          world_of res
          = fst (find_by_account db_models aid
                   (fst (find_by_user db_models "test_user_001"
                           (fst (find_by_clerk_id db_models "test_user_001"
                                                  w)))))).
Proof.
  cbv zeta.
  destruct (create_test_data_steps db_models w) as (Ht & Ho & Hw).
  cbv zeta in Ht, Ho, Hw. rewrite Ht, Ho, Hw. clear Ht Ho Hw.
  destruct (ensure_test_user_shape db_models w) as (Uk & Ufound & Unone).
  cbv zeta in Uk, Ufound, Unone.
  set (user := ensure_test_user db_models w) in *.
  destruct (ensure_test_accounts_shape db_models (world_of user))
    as (Ak & Afound & Anone & _).
  cbv zeta in Ak, Afound, Anone.
  set (accs := ensure_test_accounts db_models (world_of user)) in *.
  exists (trace_of user).
  assert (Huser : forall u,
             In (FindByClerkId "test_user_001" (inr (Some u))) (trace_of user) ->
             existsb is_create_user (trace_of user) = false
             /\ In (Print "   ℹ️  Test user already exists") (trace_of user)).
  { intros u H. destruct (Ufound u H) as (H1 & H2 & _). split; assumption. }
  assert (Hnone : forall found,
             ~ In (FindByUser "test_user_001" found) (@nil event))
    by (intros found K; destruct K).
  destruct (outcome_of user) as [[]|e|c] eqn:Hu;
    [| exists [], []; split; [reflexivity|];
       split; [repeat split; assumption|];
       split; [exact Huser|]; split; [exact Unone|];
       split; [intros a l K; destruct K|];
       split; [intros K; destruct K|];
       split; [intros aid p ps K; destruct K|];
       split; [intros aid K; destruct K|];
       intros u a l aid p ps _ K; destruct K
     | exists [], []; split; [reflexivity|];
       split; [repeat split; assumption|];
       split; [exact Huser|]; split; [exact Unone|];
       split; [intros a l K; destruct K|];
       split; [intros K; destruct K|];
       split; [intros aid p ps K; destruct K|];
       split; [intros aid K; destruct K|];
       intros u a l aid p ps _ K; destruct K ].
  exists (trace_of accs).
  destruct (outcome_of accs) as [[|first rest]|e|c] eqn:Hids.
  - exists []. split; [reflexivity|].
    split; [repeat split; assumption|].
    split; [exact Huser|]. split; [exact Unone|].
    split; [|split; [exact Anone|]];
      [|split; [intros aid p ps K; destruct K|];
        split; [intros aid K; destruct K|];
        intros u a l aid p ps _ _ K; destruct K].
    intros a l H. destruct (Afound a l H) as (H1 & H2 & H3 & _).
    discriminate H3.
  - destruct (ensure_test_positions_shape db_models first rest (world_of accs))
      as (Pk & Pfirst & Pfound & Pnone).
    cbv zeta in Pk, Pfirst, Pfound, Pnone.
    exists (trace_of (ensure_test_positions db_models (first :: rest)
                                            (world_of accs))).
    split; [reflexivity|].
    split; [repeat split; assumption|].
    split; [exact Huser|]. split; [exact Unone|].
    split; [|split; [exact Anone|split; [|split; [exact Pnone|]]]].
    + intros a l H. destruct (Afound a l H) as (H1 & H2 & H3 & _).
      split; [exact H1|]. split; [exact H2|].
      intros aid found Hin. injection H3 as <- _. exact (Pfirst _ _ Hin).
    + intros aid p ps H. destruct (Pfound _ _ _ H) as (H1 & H2 & _).
      split; assumption.
    + intros u a l aid p ps H1 H2 H3.
      destruct (Ufound _ H1) as (_ & _ & _ & Hw1).
      destruct (Afound _ _ H2) as (_ & _ & _ & Hw2).
      destruct (Pfound _ _ _ H3) as (_ & _ & Hw3).
      rewrite (Pfirst _ _ H3). rewrite Hw3, Hw2. unfold accs. rewrite Hw1.
      reflexivity.
  - exists []. split; [reflexivity|].
    split; [repeat split; assumption|].
    split; [exact Huser|]. split; [exact Unone|].
    split; [|split; [exact Anone|]];
      [|split; [intros aid p ps K; destruct K|];
        split; [intros aid K; destruct K|];
        intros u a l aid p ps _ _ K; destruct K].
    intros a l H. destruct (Afound a l H) as (H1 & H2 & H3 & _).
    discriminate H3.
  - exists []. split; [reflexivity|].
    split; [repeat split; assumption|].
    split; [exact Huser|]. split; [exact Unone|].
    split; [|split; [exact Anone|]];
      [|split; [intros aid p ps K; destruct K|];
        split; [intros aid K; destruct K|];
        intros u a l aid p ps _ _ K; destruct K].
    intros a l H. destruct (Afound a l H) as (H1 & H2 & H3 & _).
    discriminate H3.
Qed.

(** C3, as the code has it. Whatever the repository does, a run of the
    test-fixture step creates nothing that its lookups found.  The user is
    created exactly when the lookup by clerk id finds none; when it finds
    one, the line about the existing user is printed.  When the lookup of
    the user's accounts lists any, however many, the line with their number
    is printed, no account is created, and positions are looked up under
    the account listed first; when it lists none, accounts are created.
    When that lookup finds positions no position is added; when it finds
    none, positions are added, the five fixed ones under that account in a
    run that ends normally.  Hence a run in which the three lookups find
    the user, an account and a position makes no creation call at all, ends
    normally, and leaves every count of rows as it was, provided the three
    lookups themselves leave it as it was: this is what a second run in
    succession does whenever the repository shows it what the first run
    left. *)
Theorem fixture_is_idempotent (w : W) :
  let res := create_test_data db_models w in
  let t := trace_of res in
  (forall u,
      In (FindByClerkId "test_user_001" (inr (Some u))) t ->
      existsb is_create_user t = false
      /\ In (Print "   ℹ️  Test user already exists") t)
  /\ (In (FindByClerkId "test_user_001" (inr None)) t ->
      existsb is_create_user t = true)
  /\ (forall a l,
        In (FindByUser "test_user_001" (inr (a :: l))) t ->
        existsb is_create_account t = false
        /\ In (Print ("   ℹ️  User already has "
                      ++ NilZero.string_of_int
                           (Z.to_int (Z.of_nat (List.length (a :: l))))
                      ++ " accounts")) t
        /\ forall aid found, In (FindByAccount aid found) t -> aid = acc_id a)
  /\ (In (FindByUser "test_user_001" (inr [])) t ->
      existsb is_create_account t = true)
  /\ (forall aid p ps,
        In (FindByAccount aid (inr (p :: ps))) t ->
        existsb is_add_position t = false)
  /\ (forall aid,
        In (FindByAccount aid (inr [])) t ->
        existsb is_add_position t = true
        /\ (outcome_of res = Normal tt ->
            filter is_add_position t
            = map (fun '(symbol, quantity) =>
                     AddPosition aid symbol quantity (inr tt))
                  test_positions))
  /\ (forall u a l aid p ps,
        In (FindByClerkId "test_user_001" (inr (Some u))) t ->
        In (FindByUser "test_user_001" (inr (a :: l))) t ->
        In (FindByAccount aid (inr (p :: ps))) t ->
        creations t = []
        /\ outcome_of res = Normal tt
        /\ forall (R : Type) (row_count : W -> R),
             (forall cid w0,
                 row_count (fst (find_by_clerk_id db_models cid w0))
                 = row_count w0) ->
             (forall cid w0,
                 row_count (fst (find_by_user db_models cid w0))
                 = row_count w0) ->
             (forall id w0,
                 row_count (fst (find_by_account db_models id w0))
                 = row_count w0) ->
             row_count (world_of res) = row_count w).
Proof.
  cbv zeta.
  destruct (create_test_data_parts w)
    as (tu & ta & tp & Ht & (Uk & Ak & Pk) & Ufound & Unone & Afound & Anone
        & Pfound & Pnone & Hworld).
  cbv zeta in Ht, Pfound, Pnone, Hworld. rewrite Ht. clear Ht.
  assert (Hin : forall ev,
             In ev (Print (nl ++ "👤 Creating test user and portfolio...")
                    :: tu ++ ta ++ tp) ->
             is_print ev = false ->
             (user_step_event ev = true /\ In ev tu)
             \/ (account_step_event ev = true /\ In ev ta)
             \/ (position_step_event ev = true /\ In ev tp)).
  { intros ev [H|H] Hev; [subst ev; discriminate Hev|].
    exact (in_fixture_steps ev tu ta tp Uk Ak Pk H). }
  assert (Hex : forall q,
             (forall s, q (Print s) = false) ->
             existsb q (Print (nl ++ "👤 Creating test user and portfolio...")
                        :: tu ++ ta ++ tp)
             = existsb q tu || existsb q ta || existsb q tp).
  { intros q Hq. cbn [existsb]. rewrite Hq, !existsb_app. cbn [orb].
    apply orb_assoc. }
  assert (Hu : forall q,
             (forall ev, user_step_event ev = true -> q ev = false) ->
             existsb q tu = false)
    by (intros q Hq; exact (forallb_existsb_false _ _ _ Hq Uk)).
  assert (Ha : forall q,
             (forall ev, account_step_event ev = true -> q ev = false) ->
             existsb q ta = false)
    by (intros q Hq; exact (forallb_existsb_false _ _ _ Hq Ak)).
  assert (Hp : forall q,
             (forall ev, position_step_event ev = true -> q ev = false) ->
             existsb q tp = false)
    by (intros q Hq; exact (forallb_existsb_false _ _ _ Hq Pk)).
  assert (Huser : forall u,
             In (FindByClerkId "test_user_001" (inr (Some u)))
                (Print (nl ++ "👤 Creating test user and portfolio...")
                 :: tu ++ ta ++ tp) ->
             In (FindByClerkId "test_user_001" (inr (Some u))) tu).
  { intros u H.
    destruct (Hin _ H eq_refl) as [[_ K]|[[K _]|[K _]]];
      [exact K | discriminate K | discriminate K]. }
  assert (Haccs : forall found,
             In (FindByUser "test_user_001" found)
                (Print (nl ++ "👤 Creating test user and portfolio...")
                 :: tu ++ ta ++ tp) ->
             In (FindByUser "test_user_001" found) ta).
  { intros found H.
    destruct (Hin _ H eq_refl) as [[K _]|[[_ K]|[K _]]];
      [discriminate K | exact K | discriminate K]. }
  assert (Hposs : forall aid found,
             In (FindByAccount aid found)
                (Print (nl ++ "👤 Creating test user and portfolio...")
                 :: tu ++ ta ++ tp) ->
             In (FindByAccount aid found) tp).
  { intros aid found H.
    destruct (Hin _ H eq_refl) as [[K _]|[[K _]|[_ K]]];
      [discriminate K | discriminate K | exact K]. }
  split; [|split; [|split; [|split; [|split; [|split]]]]].
  - intros u H. apply Huser in H. destruct (Ufound u H) as [H1 H2].
    split.
    + rewrite Hex by reflexivity.
      rewrite H1, (Ha is_create_user), (Hp is_create_user);
        [reflexivity | other_step | other_step].
    + right. apply in_or_app. left. exact H2.
  - intros H.
    assert (K : In (FindByClerkId "test_user_001" (inr None)) tu).
    { destruct (Hin _ H eq_refl) as [[_ K]|[[K _]|[K _]]];
        [exact K | discriminate K | discriminate K]. }
    rewrite Hex by reflexivity. rewrite (Unone K). reflexivity.
  - intros a l H. apply Haccs in H. destruct (Afound a l H) as (H1 & H2 & H3).
    split; [|split].
    + rewrite Hex by reflexivity.
      rewrite H1, (Hu is_create_account), (Hp is_create_account);
        [reflexivity | other_step | other_step].
    + right. apply in_or_app. right. apply in_or_app. left. exact H2.
    + intros aid found K. apply Hposs in K. exact (H3 _ _ K).
  - intros H. apply Haccs in H.
    rewrite Hex by reflexivity. rewrite (Anone H), orb_true_r. reflexivity.
  - intros aid p ps H. apply Hposs in H. destruct (Pfound _ _ _ H) as [H1 _].
    rewrite Hex by reflexivity.
    rewrite H1, (Hu is_add_position), (Ha is_add_position);
      [reflexivity | other_step | other_step].
  - intros aid H. apply Hposs in H. destruct (Pnone _ H) as [H1 H2].
    split.
    + rewrite Hex by reflexivity. rewrite H1, !orb_true_r. reflexivity.
    + intros Hout. cbn [filter is_add_position].
      rewrite !filter_app, (H2 Hout).
      assert (Hnone : forall l,
                 existsb is_add_position l = false ->
                 filter is_add_position l = []).
      { induction l as [|ev l IH]; [reflexivity|]. cbn [existsb filter].
        intros K. apply orb_false_iff in K as [K1 K2].
        rewrite K1. exact (IH K2). }
      rewrite (Hnone tu), (Hnone ta); [reflexivity | |].
      * apply Ha. other_step.
      * apply Hu. other_step.
  - intros u a l aid p ps H1 H2 H3.
    apply Huser in H1. apply Haccs in H2. apply Hposs in H3.
    destruct (Ufound _ H1) as [K1 _]. destruct (Afound _ _ H2) as [K2 _].
    destruct (Pfound _ _ _ H3) as [K3 Hout].
    split; [|split; [exact Hout|]];
      [|intros R row_count Hfind1 Hfind2 Hfind3;
        rewrite (Hworld _ _ _ _ _ _ H1 H2 H3), Hfind3, Hfind2, Hfind1;
        reflexivity].
    change (creations (Print (nl ++ "👤 Creating test user and portfolio...")
                       :: tu ++ ta ++ tp))
      with (creations (tu ++ ta ++ tp)).
    rewrite !creations_app.
    rewrite (no_creation user_step_event is_create_user tu),
            (no_creation account_step_event is_create_account ta),
            (no_creation position_step_event is_add_position tp);
      try assumption; try reflexivity;
      intros [] Hk Hc; try discriminate Hk; try discriminate Hc; reflexivity.
Qed.
End FixtureRuns.

(** Two runs on which the fixture step creates rows although an earlier run
    or an earlier state had the user and the accounts in place.  On a
    repository that lists the newest account first, the second of two runs
    in succession looks for positions under the third account and adds the
    five positions once more.  And with the user and three accounts in place
    but no position, the two informational lines are printed and five rows
    are created all the same. *)
Lemma second_run_can_create_rows :
  (let once := create_test_data newest_first_models empty_store in
   let twice := create_test_data newest_first_models (world_of once) in
   outcome_of once = Normal tt
   /\ outcome_of twice = Normal tt
   /\ In (FindByAccount 1 (inr [])) (trace_of once)
   /\ In (FindByAccount 3 (inr [])) (trace_of twice)
   /\ row_counts (world_of once) = (1, 3, 5)
   /\ row_counts (world_of twice) = (1, 3, 10)
   /\ row_counts (world_of twice) <> row_counts (world_of once))
  /\ (let s := accounts_without_positions in
      let res := create_test_data mem_models s in
      (has_user "test_user_001" s = true
       /\ List.length (filter (owned_by "test_user_001") (accounts s)) = 3)
      /\ (In (Print "   ℹ️  Test user already exists") (trace_of res)
          /\ In (Print "   ℹ️  User already has 3 accounts") (trace_of res))
      /\ creations (trace_of res) <> []
      /\ row_counts s = (1, 3, 0)
      /\ row_counts (world_of res) = (1, 3, 5)).
Proof.
  cbv zeta. split.
  - split; [reflexivity|]. split; [reflexivity|].
    split; [vm_compute; tauto|]. split; [vm_compute; tauto|].
    split; [reflexivity|]. split; [reflexivity|].
    vm_compute. discriminate.
  - split; [split; reflexivity|].
    split; [split; vm_compute; tauto|].
    split; [vm_compute; discriminate|].
    split; reflexivity.
Qed.

Lemma fixture_is_idempotent_witness :
  let once := create_test_data mem_models empty_store in
  let twice := create_test_data mem_models (world_of once) in
  let partial := create_test_data mem_models partial_accounts in
  ((exists u a l aid p ps,
       In (FindByClerkId "test_user_001" (inr (Some u))) (trace_of twice)
       /\ In (FindByUser "test_user_001" (inr (a :: l))) (trace_of twice)
       /\ In (FindByAccount aid (inr (p :: ps))) (trace_of twice))
   /\ creations (trace_of twice) = []
   /\ outcome_of twice = Normal tt
   /\ row_counts (world_of twice) = row_counts (world_of once)
   /\ row_counts (world_of once) = (1, 3, 5))
  /\ ((exists a b,
          In (FindByUser "test_user_001" (inr [a; b])) (trace_of partial))
      /\ In (FindByAccount 7 (inr [])) (trace_of partial)
      /\ existsb is_create_account (trace_of partial) = false
      /\ In (Print "   ℹ️  User already has 2 accounts") (trace_of partial)
      /\ filter is_add_position (trace_of partial)
         = [ AddPosition 7 "SPY" (Dec "100") (inr tt);
             AddPosition 7 "QQQ" (Dec "50") (inr tt);
             AddPosition 7 "BND" (Dec "200") (inr tt);
             AddPosition 7 "VEA" (Dec "150") (inr tt);
             AddPosition 7 "GLD" (Dec "25") (inr tt) ]).
Proof.
  cbv zeta.
  set (once := create_test_data mem_models empty_store).
  set (twice := create_test_data mem_models (world_of once)).
  set (partial := create_test_data mem_models partial_accounts).
  destruct (fixture_is_idempotent mem_models (world_of once))
    as (_ & _ & _ & _ & _ & _ & Hsettled).
  destruct (fixture_is_idempotent mem_models partial_accounts)
    as (_ & _ & Hfound & _ & _ & Hnone & _).
  cbv zeta in Hsettled, Hfound, Hnone. fold once twice in Hsettled.
  fold partial in Hfound, Hnone.
  split.
  - assert (H1 : exists u,
               In (FindByClerkId "test_user_001" (inr (Some u)))
                  (trace_of twice))
      by (vm_compute; eexists; right; left; reflexivity).
    assert (H2 : exists a l,
               In (FindByUser "test_user_001" (inr (a :: l)))
                  (trace_of twice))
      by (vm_compute; eexists _, _; do 3 right; left; reflexivity).
    assert (H3 : exists aid p ps,
               In (FindByAccount aid (inr (p :: ps))) (trace_of twice))
      by (vm_compute; eexists _, _, _; do 5 right; left; reflexivity).
    destruct H1 as (u & H1). destruct H2 as (a & l & H2).
    destruct H3 as (aid & p & ps & H3).
    destruct (Hsettled _ _ _ _ _ _ H1 H2 H3) as (Hc & Ho & Hrows).
    split; [exists u, a, l, aid, p, ps; auto|].
    split; [exact Hc|]. split; [exact Ho|].
    split; [|vm_compute; reflexivity].
    exact (Hrows _ row_counts (fun _ _ => eq_refl) (fun _ _ => eq_refl)
                 (fun _ _ => eq_refl)).
  - assert (H2 : exists a b,
               In (FindByUser "test_user_001" (inr [a; b]))
                  (trace_of partial))
      by (vm_compute; eexists _, _; do 3 right; left; reflexivity).
    assert (H3 : In (FindByAccount 7 (inr [])) (trace_of partial))
      by (vm_compute; tauto).
    destruct H2 as (a & b & H2).
    destruct (Hfound _ _ H2) as (Hacc & Hline & _).
    destruct (Hnone _ H3) as [_ Hfive].
    split; [exists a, b; exact H2|]. split; [exact H3|].
    split; [exact Hacc|]. split; [exact Hline|].
    apply Hfive. vm_compute. reflexivity.
Defined.

(** ** Where an uncaught exception leaves the trace *)

Section StopsAtFailure.
Context {W : Type}.

Lemma stops_at_failure_ret {A} (a : A) : stops_at_failure (@ret W A a).
Proof. intros w. reflexivity. Qed.

Lemma stops_at_failure_print (line : string) :
  stops_at_failure (@print W line).
Proof. intros w. reflexivity. Qed.

Lemma stops_at_failure_sys_exit {A} (c : Z) :
  stops_at_failure (@sys_exit W A c).
Proof. intros w. reflexivity. Qed.

Lemma stops_at_failure_call {R} (f : W -> W * (exn + R))
      (ev : exn + R -> event) :
  (forall e, raised_by (ev (inl e)) = Some e) ->
  (forall x, quiet (ev (inr x)) = true) ->
  stops_at_failure (call f ev).
Proof.
  intros Hev Hok w. unfold call. destruct (f w) as [w1 [e1|x]]; simpl.
  - exists [], (ev (inl e1)).
    split; [reflexivity|]. split; [left; apply Hev | reflexivity].
  - rewrite Hok. reflexivity.
Qed.

Lemma stops_at_failure_bind {A B} (m : M W A) (f : A -> M W B) :
  stops_at_failure m -> (forall a, stops_at_failure (f a)) ->
  stops_at_failure (bind m f).
Proof.
  intros Hm Hf w. rewrite bind_run. specialize (Hm w).
  destruct (outcome_of (m w)) as [a|e1|c]; cbn [trace_of outcome_of];
    try exact Hm.
  specialize (Hf a (world_of (m w))).
  destruct (outcome_of (f a (world_of (m w)))) as [b|e|c].
  - rewrite forallb_app, Hm, Hf. reflexivity.
  - destruct Hf as (pre & ev & Ht & Hc & Hq).
    exists (trace_of (m w) ++ pre), ev. rewrite Ht, app_assoc.
    split; [reflexivity|]. split; [exact Hc|].
    rewrite forallb_app, Hm, Hq. reflexivity.
  - rewrite forallb_app, Hm, Hf. reflexivity.
Qed.

Lemma stops_at_failure_for_each {A} (xs : list A) (body : A -> M W unit) :
  (forall x, stops_at_failure (body x)) ->
  stops_at_failure (for_each xs body).
Proof.
  intros Hb. induction xs as [|x xs IH]; simpl.
  - apply stops_at_failure_ret.
  - apply stops_at_failure_bind; auto.
Qed.

Lemma stops_at_failure_for_fold {A S} (xs : list A) (body : A -> S -> M W S) :
  (forall x s, stops_at_failure (body x s)) ->
  forall s, stops_at_failure (for_fold xs s body).
Proof.
  intros Hb. induction xs as [|x xs IH]; intros s; simpl.
  - apply stops_at_failure_ret.
  - apply stops_at_failure_bind; auto.
Qed.
End StopsAtFailure.

Ltac stops_at_failure_step :=
  first
    [ apply stops_at_failure_ret
    | apply stops_at_failure_print
    | apply stops_at_failure_sys_exit
    | apply stops_at_failure_call; intros ?; reflexivity
    | apply stops_at_failure_bind; [| intros ?]
    | apply stops_at_failure_for_each; intros ?
    | apply stops_at_failure_for_fold; intros ? ?
    | match goal with
      | |- stops_at_failure (match ?x with _ => _ end) => destruct x
      end ].

Ltac stops_at_failure_all := repeat stops_at_failure_step.

Lemma last_event_split {A} (pre pre' post : list A) (x y : A) :
  pre ++ x :: post = pre' ++ [y] ->
  In x pre' \/ (post = [] /\ x = y).
Proof.
  destruct (exists_last (l := x :: post) ltac:(discriminate)) as (l & z & Hl).
  rewrite Hl, app_assoc. intros H.
  apply app_inj_tail in H as [Hpre Hz]. subst z.
  destruct post as [|p post].
  - right. destruct l as [|a l]; [|destruct l; discriminate Hl].
    injection Hl as ->. split; reflexivity.
  - left. rewrite <- Hpre.
    destruct l as [|a l]; [discriminate Hl|]. injection Hl as <- _.
    apply in_or_app. right. left. reflexivity.
Qed.

Section RunEndings.
Context {W : Type}.
Variable db : DataAPIClient W.
Variable db_models : Database W.
Variable subprocess_run : Subprocess W.

Lemma drop_all_tables_stops_at_failure : stops_at_failure (drop_all_tables db).
Proof.
  intros w.
  assert (Hq : forallb quiet (trace_of (drop_all_tables db w)) = true).
  { pose proof (drop_all_tables_emits db w) as H.
    rewrite forallb_forall in *. intros ev Hin. specialize (H ev Hin).
    destruct ev; try discriminate H; reflexivity. }
  destruct (drop_all_tables_run db w)
    as (r1 & r2 & r3 & r4 & r5 & rf & w' & Hrun).
  rewrite Hrun in *. exact Hq.
Qed.

Lemma run_migrations_stops_at_failure :
  stops_at_failure (run_migrations subprocess_run).
Proof. unfold run_migrations, run_cmd. stops_at_failure_all. Qed.

Lemma load_seed_data_stops_at_failure :
  stops_at_failure (load_seed_data subprocess_run).
Proof. unfold load_seed_data, run_cmd. cbv zeta. stops_at_failure_all. Qed.

Lemma create_test_data_stops_at_failure :
  stops_at_failure (create_test_data db_models).
Proof.
  unfold create_test_data, ensure_test_user, ensure_test_accounts,
         ensure_test_positions.
  stops_at_failure_all.
Qed.

Lemma verify_table_stops_at_failure (table : string) :
  stops_at_failure (verify_table db table).
Proof.
  intros w. destruct (verify_table_run db table w) as (a & w1 & _ & Hrun).
  rewrite Hrun. cbn [trace_of outcome_of]. unfold verify_outcome, verify_events.
  destruct a as [e1|rows].
  - exists [], (Query (count_sql table) (inl e1)).
    split; [reflexivity|]. split; [left; reflexivity | reflexivity].
  - destruct rows as [|row rows]; cbn [count_of]; [reflexivity|].
    destruct (dict_get row "count") eqn:Hget; [reflexivity|].
    exists [], (Query (count_sql table) (inr (row :: rows))).
    split; [reflexivity|]. split; [|reflexivity].
    right. exists (count_sql table), row, rows. auto.
Qed.

Lemma final_verification_stops_at_failure :
  stops_at_failure (final_verification db).
Proof.
  unfold final_verification. cbv zeta.
  apply stops_at_failure_bind; [apply stops_at_failure_print | intros _].
  apply stops_at_failure_for_each. apply verify_table_stops_at_failure.
Qed.

Lemma closing_lines_run (args : Args) (w : W) :
  closing_lines args w = Run w (closing_events args) (Normal tt).
Proof. destruct args as [[|] s]; reflexivity. Qed.

Lemma main_stops_at_failure (args : Args) :
  stops_at_failure (main db db_models subprocess_run args).
Proof.
  unfold main.
  apply stops_at_failure_bind; [apply stops_at_failure_print | intros _].
  apply stops_at_failure_bind; [apply stops_at_failure_print | intros _].
  apply stops_at_failure_bind; [|intros _].
  { destruct (negb (skip_drop args)); [|apply stops_at_failure_ret].
    apply stops_at_failure_bind;
      [apply drop_all_tables_stops_at_failure | intros _].
    apply run_migrations_stops_at_failure. }
  apply stops_at_failure_bind;
    [apply load_seed_data_stops_at_failure | intros _].
  apply stops_at_failure_bind; [|intros _].
  { destruct (with_test_data args);
      [apply create_test_data_stops_at_failure | apply stops_at_failure_ret]. }
  apply stops_at_failure_bind;
    [apply final_verification_stops_at_failure | intros _].
  intros w. rewrite closing_lines_run. cbn [outcome_of trace_of].
  destruct args as [[|] s]; reflexivity.
Qed.

Lemma bind_ends_with {A} (m : M W A) (f : A -> M W unit)
      (tail : list event) :
  (forall a w, outcome_of (f a w) = Normal tt ->
               exists pre, trace_of (f a w) = pre ++ tail) ->
  forall w, outcome_of (bind m f w) = Normal tt ->
            exists pre, trace_of (bind m f w) = pre ++ tail.
Proof.
  intros Hf w. rewrite bind_run.
  destruct (outcome_of (m w)) as [a|e|c]; cbn [trace_of outcome_of];
    try discriminate.
  intros H. destruct (Hf a _ H) as [pre Hpre].
  exists (trace_of (m w) ++ pre). rewrite Hpre, app_assoc. reflexivity.
Qed.

(** X1. A run of [main] that ends normally has printed, last of all, the
    separator and the completion line and, with --with-test-data, the four
    lines about the test user: these depend on the flag alone, not on
    what the fixture step found or created. *)
Theorem normal_run_ends_with_closing_lines (args : Args) (w : W) :
  outcome_of (main db db_models subprocess_run args w) = Normal tt ->
  exists pre,
    trace_of (main db db_models subprocess_run args w)
    = pre ++ closing_events args.
Proof.
  unfold main.
  do 6 (apply bind_ends_with; intros _; clear w; intros w).
  intros _. exists []. rewrite closing_lines_run. reflexivity.
Qed.

(** X2. In every run of [main], a subprocess launch, a repository call or
    a count query that raises ends the run at once: it is the last event of
    the trace, so nothing is printed or called after it, and the run ends
    with the very exception it raised.  None of these calls sits in a try
    block; only the drop statements do. *)
Theorem raising_call_stops_the_run (args : Args) (w : W)
        (pre post : list event) (ev : event) (e : exn) :
  let res := main db db_models subprocess_run args w in
  trace_of res = pre ++ ev :: post ->
  match ev with
  | Query _ (inl raised) | RunCmd _ (inl raised)
  | FindByClerkId _ (inl raised) | CreateUser _ (inl raised)
  | FindByUser _ (inl raised) | CreateAccount _ _ (inl raised)
  | FindByAccount _ (inl raised) | AddPosition _ _ _ (inl raised) =>
      raised = e
  | _ => False
  end ->
  post = [] /\ outcome_of res = Raised e.
Proof.
  cbv zeta. intros Ht Hev.
  assert (Hraised : raised_by ev = Some e).
  { destruct ev as [s|s a|s a|c a|c a|u a|c a|c x a|i a|i s q a];
      try contradiction; destruct a as [e0|r]; try contradiction;
      cbn [raised_by]; congruence. }
  clear Hev.
  assert (Hloud : quiet ev = false) by (unfold quiet; rewrite Hraised; reflexivity).
  pose proof (main_stops_at_failure args w) as H.
  destruct (outcome_of (main db db_models subprocess_run args w)) as [[]|e'|c].
  - rewrite Ht, forallb_app in H. cbn [forallb] in H. rewrite Hloud in H.
    rewrite andb_false_r in H. discriminate H.
  - destruct H as (pre' & ev' & Ht' & Hc & Hq).
    rewrite Ht in Ht'. apply last_event_split in Ht' as [Hin|[-> <-]].
    + rewrite forallb_forall in Hq. rewrite (Hq _ Hin) in Hloud.
      discriminate Hloud.
    + split; [reflexivity|].
      destruct Hc as [Hc|(sql & row & rows & -> & _)];
        [congruence | discriminate Hraised].
  - rewrite Ht, forallb_app in H. cbn [forallb] in H. rewrite Hloud in H.
    rewrite andb_false_r in H. discriminate H.
Qed.

(** X3. [create_test_data] never leaves through sys.exit; the first
    repository call that raises ends it with that exception, as the last
    event of its trace, and when it ends normally no call has raised. *)
Theorem create_test_data_propagates_errors (w : W) :
  let res := create_test_data db_models w in
  match outcome_of res with
  | Normal _ => forallb quiet (trace_of res) = true
  | Raised e =>
      exists pre ev,
        trace_of res = pre ++ [ev]
        /\ is_repository ev = true
        /\ raised_by ev = Some e
        /\ forallb quiet pre = true
  | Exited _ => False
  end.
Proof.
  cbv zeta.
  pose proof (create_test_data_stops_at_failure w) as H.
  pose proof (create_test_data_never_exits db_models w) as Hexit.
  pose proof (create_test_data_emits db_models w) as Hkind.
  destruct (outcome_of (create_test_data db_models w)) as [[]|e|c].
  - exact H.
  - destruct H as (pre & ev & Ht & Hc & Hq).
    exists pre, ev. split; [exact Ht|].
    assert (Hev : is_print ev || is_repository ev = true).
    { rewrite forallb_forall in Hkind. apply Hkind. rewrite Ht.
      apply in_or_app. right. left. reflexivity. }
    destruct Hc as [Hc|(sql & row & rows & -> & _)]; [|discriminate Hev].
    split; [|split; assumption].
    destruct ev; try discriminate Hc; try discriminate Hev; reflexivity.
  - apply (Hexit c). reflexivity.
Qed.
End RunEndings.

(** ** What the fixture step announces *)

Lemma announced_spec (t : list event) :
  announced t ->
  forall pre ev post line,
    t = pre ++ ev :: post -> notice ev = Some line ->
    exists post', post = Print line :: post'.
Proof.
  induction t as [|ev0 t IH]; intros Ht pre ev post line Heq Hn.
  - destruct pre; discriminate Heq.
  - destruct Ht as [Hhead Htail]. destruct pre as [|ev1 pre].
    + injection Heq as -> ->. rewrite Hn in Hhead. exact Hhead.
    + injection Heq as _ ->. eapply IH; eauto.
Qed.

Section Announcements.
Context {W : Type}.
Variable db_models : Database W.

Lemma create_test_data_announced (w : W) :
  announced (trace_of (create_test_data db_models w)).
Proof.
  unfold create_test_data, ensure_test_user, ensure_test_accounts,
         ensure_test_positions, test_accounts, test_positions, model_dump.
  cbv zeta. cbn [for_fold for_each].
  unfold bind, call, print, ret.
  repeat (next_repository_call; cbn [trace_of outcome_of world_of app map]);
    cbn [trace_of outcome_of world_of app map announced notice
         account_name str_Decimal];
    repeat split; eexists; reflexivity.
Qed.

(** X4. In every run of [create_test_data], each creation call that
    returned is immediately followed by the print of its confirmation line:
    the user; the account with its name; the position with the quantity as
    the literal was written and the symbol.  Each lookup that found
    something is immediately followed by its information line, with the
    decimal numeral of the number of accounts or positions found. *)
Theorem creations_and_skips_are_announced (w : W) (pre post : list event)
        (ev : event) :
  trace_of (create_test_data db_models w) = pre ++ ev :: post ->
  match ev with
  | FindByClerkId _ (inr (Some _)) =>
      exists post', post = Print "   ℹ️  Test user already exists" :: post'
  | CreateUser _ (inr _) =>
      exists post', post = Print "   ✅ Created test user" :: post'
  | FindByUser _ (inr (a :: l)) =>
      exists post',
        post = Print ("   ℹ️  User already has "
                      ++ NilZero.string_of_int
                           (Z.to_int (Z.of_nat (List.length (a :: l))))
                      ++ " accounts") :: post'
  | CreateAccount _ a (inr _) =>
      exists post',
        post = Print ("   ✅ Created account: " ++ account_name a) :: post'
  | FindByAccount _ (inr (p :: ps)) =>
      exists post',
        post = Print ("   ℹ️  Account already has "
                      ++ NilZero.string_of_int
                           (Z.to_int (Z.of_nat (List.length (p :: ps))))
                      ++ " positions") :: post'
  | AddPosition _ symbol (Dec quantity) (inr _) =>
      exists post',
        post = Print ("   ✅ Added position: " ++ quantity
                      ++ " shares of " ++ symbol) :: post'
  | _ => True
  end.
Proof.
  intros Ht.
  pose proof (announced_spec (create_test_data_announced w)) as H.
  specialize (H pre ev post).
  destruct ev as [s|s a|s a|c a|c a|u a|c a|c x a|i a|i s q a];
    try exact I;
    repeat match goal with
           | |- match ?x with _ => _ end => destruct x; try exact I
           end;
    exact (H _ Ht eq_refl).
Qed.
End Announcements.

(** ** What each answer to a count query leads to *)

Section Answers.
Context {W : Type}.
Variable db : DataAPIClient W.

(** X5. In the verification report every count query is for one of the
    five tables, and its answer decides what comes next: a query that
    raises ends the report with its exception; rows whose first row has no
    'count' column end it with KeyError('count'); in both cases no further
    table is queried.  Otherwise the next event is the print of the line
    with the count read from the first row, whatever the other rows hold:
    0 for no row, the decimal numeral of an integer count, the text itself
    of a textual one, None for a null. *)
Theorem count_query_answer_decides (w : W) (pre post : list event)
        (sql : string) (a : exn + list dict) :
  trace_of (final_verification db w) = pre ++ Query sql a :: post ->
  exists table,
    In table ["users"; "instruments"; "accounts"; "positions"; "jobs"]
    /\ sql = ("SELECT COUNT(*) as count FROM " ++ table)%string
    /\ match a with
       | inl e =>
           post = [] /\ outcome_of (final_verification db w) = Raised e
       | inr [] =>
           exists post',
             post = Print ("   • " ++ table ++ ": 0 records") :: post'
       | inr (row :: _) =>
           match dict_get row "count" with
           | Some c =>
               exists post',
                 post = Print ("   • " ++ table ++ ": "
                               ++ match c with
                                  | VInt n => NilZero.string_of_int (Z.to_int n)
                                  | VStr text => text
                                  | VNone => "None"
                                  end
                               ++ " records") :: post'
           | None =>
               post = []
               /\ outcome_of (final_verification db w)
                  = Raised (Exception "'count'")
           end
       end.
Proof.
  intros H.
  destruct (final_verification_answer db w pre post sql a H)
    as (table & Hin & Hsql & Hcase).
  exists table. split; [exact Hin|]. split; [exact Hsql|].
  destruct a as [e|[|row rows]]; [exact Hcase | exact Hcase |].
  cbn [count_of] in Hcase.
  destruct (dict_get row "count") as [[n|text|]|]; exact Hcase.
Qed.
End Answers.

(** ** The order of the calls *)

Lemma phases_app (t1 t2 : list event) :
  phases (t1 ++ t2) = phases t1 ++ phases t2.
Proof. unfold phases, calls. rewrite filter_app, map_app. reflexivity. Qed.

Lemma phases_uniform (p : event -> bool) (k : nat) (t : list event) :
  (forall ev, p ev = true -> is_print ev = true \/ phase ev = k) ->
  forallb p t = true ->
  exists n, phases t = repeat k n.
Proof.
  intros Hp. induction t as [|ev t IH]; intros H.
  - exists 0. reflexivity.
  - cbn [forallb] in H. apply andb_true_iff in H as [Hev Ht].
    destruct (IH Ht) as [n Hn]. unfold phases, calls in *. cbn [filter].
    destruct (Hp ev Hev) as [Hprint|Hk].
    + rewrite Hprint. cbn [negb]. exists n. exact Hn.
    + destruct (is_print ev) eqn:Hprint; cbn [negb map].
      * exists n. exact Hn.
      * exists (S n). rewrite Hn, Hk. reflexivity.
Qed.

Lemma phases_prints (t : list event) :
  forallb is_print t = true -> phases t = [].
Proof.
  induction t as [|ev t IH]; [reflexivity|]. cbn [forallb]. intros H.
  apply andb_true_iff in H as [Hev Ht].
  unfold phases, calls in *. cbn [filter]. rewrite Hev. cbn [negb].
  apply IH. exact Ht.
Qed.

Lemma phases_verify_events (table : string) (a : exn + list dict) :
  phases (verify_events table a) = [5].
Proof.
  destruct a as [e|rows]; [reflexivity|]. unfold verify_events.
  destruct (count_of rows); reflexivity.
Qed.

Lemma phases_report_events (ts : list string)
      (answers : list (exn + list dict)) :
  phases (report_events ts answers)
  = repeat 5 (List.length (combine ts answers)).
Proof.
  revert answers. induction ts as [|t ts IH]; intros [|a answers];
    try reflexivity.
  unfold report_events. cbn [combine flat_map List.length repeat].
  rewrite phases_app, phases_verify_events. cbn [app]. f_equal. apply IH.
Qed.

Lemma phases_migration_events (a : exn + CompletedProcess) :
  phases (migration_events a) = [2].
Proof.
  destruct a as [e|r]; [reflexivity|]. unfold migration_events.
  destruct (returncode r =? 0)%Z; reflexivity.
Qed.

Lemma phases_seed_events (a : exn + CompletedProcess) :
  phases (seed_events a) = [3].
Proof.
  destruct a as [e|r]; [reflexivity|]. unfold seed_events.
  destruct (returncode r =? 0)%Z; reflexivity.
Qed.

Section CallOrder.
Context {W : Type}.
Variable db : DataAPIClient W.
Variable db_models : Database W.
Variable subprocess_run : Subprocess W.

Lemma phases_drop_all_tables (w : W) :
  phases (trace_of (drop_all_tables db w)) = repeat 1 6.
Proof.
  destruct (drop_all_tables_run db w)
    as (r1 & r2 & r3 & r4 & r5 & rf & w' & Hrun).
  rewrite Hrun. reflexivity.
Qed.

Lemma phases_final_verification (w : W) :
  exists n, n <= 5
            /\ phases (trace_of (final_verification db w)) = repeat 5 n.
Proof.
  destruct (final_verification_run db w) as (answers & w' & Hrun & _).
  rewrite Hrun. cbn [trace_of].
  exists (List.length (combine tables answers)). split.
  - rewrite length_combine. apply Nat.le_min_l.
  - change (Print ?l :: ?t) with ([Print l] ++ t).
    rewrite phases_app, phases_report_events. reflexivity.
Qed.

Lemma phases_after_seed (args : Args) (w : W) :
  exists d n,
    phases (trace_of (after_seed db db_models args w))
    = repeat 4 d ++ repeat 5 n
    /\ (with_test_data args = false -> d = 0)
    /\ n <= 5.
Proof.
  unfold after_seed. rewrite bind_run.
  set (fixture := if with_test_data args
                  then create_test_data db_models else ret tt).
  assert (Hfix : exists d, phases (trace_of (fixture w)) = repeat 4 d
                           /\ (with_test_data args = false -> d = 0)).
  { subst fixture. destruct (with_test_data args).
    - assert (Hu : exists d,
                 phases (trace_of (create_test_data db_models w))
                 = repeat 4 d).
      { eapply phases_uniform; [|apply create_test_data_emits].
        intros [] H; try discriminate H; auto. }
      destruct Hu as [d Hd].
      exists d. split; [exact Hd | discriminate].
    - exists 0. split; reflexivity. }
  destruct Hfix as (d & Hd & Hflag).
  destruct (outcome_of (fixture w)) as [[]|e|c]; cbn [trace_of].
  - rewrite bind_run.
    destruct (phases_final_verification (world_of (fixture w)))
      as (n & Hn & Hver).
    exists d, n. split; [|split; assumption].
    rewrite phases_app, Hd. f_equal.
    destruct (outcome_of (final_verification db (world_of (fixture w))))
      as [[]|e|c]; cbn [trace_of]; try exact Hver.
    rewrite phases_app, Hver, phases_prints; [apply app_nil_r|].
    apply closing_lines_emits.
  - exists d, 0. rewrite Hd, app_nil_r. split; [reflexivity|].
    split; [exact Hflag | apply Nat.le_0_l].
  - exists d, 0. rewrite Hd, app_nil_r. split; [reflexivity|].
    split; [exact Hflag | apply Nat.le_0_l].
Qed.

(** X6. In every run of [main] the calls come in the order of the steps:
    first the drop statements, then the migration subprocess, then the
    seed subprocess, then the repository calls of the fixture, then the
    count queries; no call of an earlier step follows a call of a later
    one.  Without --skip-drop there are exactly six drop statements and one
    migration launch, with --skip-drop none of either; the seed subprocess
    is launched at most once; without --with-test-data no repository call is
    made; at most five count queries are issued. *)
Theorem calls_follow_the_steps (args : Args) (w : W) :
  exists a b c d e,
    phases (trace_of (main db db_models subprocess_run args w))
    = repeat 1 a ++ repeat 2 b ++ repeat 3 c ++ repeat 4 d ++ repeat 5 e
    /\ (if skip_drop args then a = 0 /\ b = 0 else a = 6 /\ b = 1)
    /\ c <= 1
    /\ (if with_test_data args then True else d = 0)
    /\ e <= 5.
Proof.
  destruct (main_run db db_models subprocess_run args w)
    as (am & sd & w1 & w2 & Hskip & Hmain).
  rewrite Hmain. clear Hmain.
  destruct (phases_after_seed args w2) as (d & n & Hafter & Hflag & Hn).
  assert (Hd : if with_test_data args then True else d = 0)
    by (destruct (with_test_data args); [exact I | apply Hflag; reflexivity]).
  assert (Hreset : exists a b,
             phases (banner ++ reset_events (trace_of (drop_all_tables db w)) am)
             = repeat 1 a ++ repeat 2 b
             /\ (if skip_drop args then a = 0 /\ b = 0 else a = 6 /\ b = 1)).
  { destruct am as [am|].
    - exists 6, 1. cbn [reset_events].
      rewrite !phases_app, phases_drop_all_tables, phases_migration_events.
      split; [reflexivity|].
      destruct (skip_drop args); [|split; reflexivity].
      destruct Hskip as [_ Hskip]. discriminate (Hskip eq_refl).
    - exists 0, 0. split; [reflexivity|].
      destruct (skip_drop args); [split; reflexivity|].
      destruct Hskip as [Hskip _]. discriminate (Hskip eq_refl). }
  destruct Hreset as (a & b & Hreset & Hab).
  unfold continue_with, prefixed.
  destruct (reset_outcome am) as [[]|e|c]; cbn [trace_of].
  2,3: exists a, b, 0, 0, 0; rewrite Hreset; cbn [repeat];
       rewrite !app_nil_r;
       (split; [reflexivity|]); (split; [exact Hab|]);
       (split; [apply Nat.le_0_l|]);
       (split; [destruct (with_test_data args); [exact I | reflexivity]|]);
       apply Nat.le_0_l.
  destruct (status_outcome sd) as [[]|e|c]; cbn [trace_of].
  2,3: exists a, b, 1, 0, 0; rewrite phases_app, Hreset, phases_seed_events;
       cbn [repeat]; rewrite <- !app_assoc;
       (split; [reflexivity|]); (split; [exact Hab|]);
       (split; [apply Nat.le_refl|]);
       (split; [destruct (with_test_data args); [exact I | reflexivity]|]);
       apply Nat.le_0_l.
  exists a, b, 1, d, n.
  rewrite phases_app, Hreset, phases_app, phases_seed_events, Hafter.
  cbn [repeat]. rewrite <- !app_assoc.
  split; [reflexivity|]. split; [exact Hab|].
  split; [apply Nat.le_refl|]. split; assumption.
Qed.
End CallOrder.

(** ** The subprocesses of a run *)

Lemma subprocesses_app (t1 t2 : list event) :
  subprocesses (t1 ++ t2) = subprocesses t1 ++ subprocesses t2.
Proof. apply filter_app. Qed.

Lemma subprocesses_none (t : list event) :
  existsb is_subprocess t = false -> subprocesses t = [].
Proof.
  induction t as [|ev t IH]; [reflexivity|]. cbn [existsb]. intros H.
  apply orb_false_iff in H as [Hev Ht].
  unfold subprocesses in *. cbn [filter]. rewrite Hev. apply IH. exact Ht.
Qed.

Lemma subprocesses_migration_events (a : exn + CompletedProcess) :
  subprocesses (migration_events a) = [RunCmd migrate_cmd a].
Proof.
  destruct a as [e|r]; [reflexivity|]. unfold migration_events.
  destruct (returncode r =? 0)%Z; reflexivity.
Qed.

Lemma subprocesses_seed_events (a : exn + CompletedProcess) :
  subprocesses (seed_events a) = [RunCmd seed_cmd a].
Proof.
  destruct a as [e|r]; [reflexivity|]. unfold seed_events.
  destruct (returncode r =? 0)%Z; reflexivity.
Qed.

Section Subprocesses.
Context {W : Type}.
Variable db : DataAPIClient W.
Variable db_models : Database W.
Variable subprocess_run : Subprocess W.

Lemma main_subprocesses (args : Args) (w : W) :
  exists am sd,
    (am = None <-> skip_drop args = true)
    /\ subprocesses (trace_of (main db db_models subprocess_run args w))
       = match am with
         | None => [RunCmd seed_cmd sd]
         | Some a =>
             RunCmd migrate_cmd a
             :: match status_outcome a with
                | Normal _ => [RunCmd seed_cmd sd]
                | _ => []
                end
         end.
Proof.
  destruct (main_run db db_models subprocess_run args w)
    as (am & sd & w1 & w2 & Hskip & Hmain).
  exists am, sd. split; [exact Hskip|]. rewrite Hmain. clear Hmain.
  assert (Hafter : subprocesses (trace_of (after_seed db db_models args w2))
                   = [])
    by (apply subprocesses_none, after_seed_quiet; by_kind).
  assert (Hdrop : subprocesses (trace_of (drop_all_tables db w)) = [])
    by (apply subprocesses_none, drop_trace_quiet; by_kind).
  assert (Hseed : subprocesses
                    (trace_of (continue_with (seed_events sd)
                                 (status_outcome sd) w2
                                 (after_seed db db_models args)))
                  = [RunCmd seed_cmd sd]).
  { unfold continue_with, prefixed.
    destruct (status_outcome sd) as [[]|e|c]; cbn [trace_of];
      rewrite ?subprocesses_app, ?Hafter, subprocesses_seed_events;
      reflexivity. }
  unfold continue_with at 1. unfold prefixed.
  destruct am as [a|]; cbn [reset_outcome reset_events].
  - destruct (status_outcome a) as [[]|e|c]; cbn [trace_of];
      rewrite ?subprocesses_app, ?Hseed, ?Hdrop,
              ?subprocesses_migration_events;
      reflexivity.
  - cbn [trace_of]. rewrite !subprocesses_app, Hseed. reflexivity.
Qed.

(** X7. The script launches no command other than the migration runner
    and the seed loader, each at most once.  With --skip-drop only the
    seed loader is launched.  Without it the migration runner is always
    launched, whatever the drop statements answered, and the seed loader
    is launched after it exactly when the migration runner returned exit
    status 0: not when its launch raised, not when it returned another
    status. *)
Theorem subprocess_discipline (b : bool) (w : W) :
  (exists sd,
      subprocesses
        (trace_of (main db db_models subprocess_run
                        {| with_test_data := b; skip_drop := true |} w))
      = [RunCmd ["uv"; "run"; "seed_data.py"] sd])
  /\ let t := trace_of (main db db_models subprocess_run
                             {| with_test_data := b; skip_drop := false |} w) in
     (exists e,
         subprocesses t = [RunCmd ["uv"; "run"; "run_migrations.py"] (inl e)])
     \/ (exists r,
            returncode r <> 0%Z
            /\ subprocesses t
               = [RunCmd ["uv"; "run"; "run_migrations.py"] (inr r)])
     \/ (exists r sd,
            returncode r = 0%Z
            /\ subprocesses t
               = [ RunCmd ["uv"; "run"; "run_migrations.py"] (inr r);
                   RunCmd ["uv"; "run"; "seed_data.py"] sd ]).
Proof.
  split.
  - destruct (main_subprocesses {| with_test_data := b; skip_drop := true |} w)
      as (am & sd & Hskip & Hsub).
    destruct am as [a|].
    + destruct Hskip as [_ Hskip]. discriminate (Hskip eq_refl).
    + exists sd. exact Hsub.
  - cbv zeta.
    destruct (main_subprocesses {| with_test_data := b; skip_drop := false |} w)
      as (am & sd & Hskip & Hsub).
    destruct am as [a|].
    + rewrite Hsub. destruct a as [e|r]; cbn [status_outcome].
      * left. exists e. reflexivity.
      * destruct (returncode r =? 0)%Z eqn:Hrc.
        -- right. right. exists r, sd. apply Z.eqb_eq in Hrc.
           split; [exact Hrc | reflexivity].
        -- right. left. exists r. apply Z.eqb_neq in Hrc.
           split; [exact Hrc | reflexivity].
    + destruct Hskip as [Hskip _]. discriminate (Hskip eq_refl).
Qed.
End Subprocesses.

(** ** What the fixture step ever creates *)

Section Batches.
Context {W : Type}.
Variable db_models : Database W.

(** X8. Whatever the repository answers, a call of [create_test_data]
    that ends normally has created each batch whole or not at all, and
    only with the fixed payloads: no user or the user test_user_001; no
    account or the three accounts 401(k), Roth IRA and Taxable Brokerage
    of that user; no position or the five positions SPY 100, QQQ 50,
    BND 200, VEA 150 and GLD 25, all under one account identifier. *)
Theorem batches_are_whole (w : W) :
  let t := trace_of (create_test_data db_models w) in
  outcome_of (create_test_data db_models w) = Normal tt ->
  (filter is_create_user t = []
   \/ filter is_create_user t = [CreateUser test_user (inr tt)])
  /\ (filter is_create_account t = []
      \/ exists id1 id2 id3,
           filter is_create_account t
           = map (fun '(a, i) => CreateAccount "test_user_001" a (inr i))
                 (combine test_accounts [id1; id2; id3]))
  /\ (filter is_add_position t = []
      \/ exists aid,
           filter is_add_position t
           = map (fun '(sym, q) => AddPosition aid sym q (inr tt))
                 test_positions).
Proof.
  cbv zeta.
  unfold create_test_data, ensure_test_user, ensure_test_accounts,
         ensure_test_positions, model_dump.
  cbv zeta. unfold test_accounts, test_positions.
  cbn [for_fold for_each].
  unfold bind, call, print, ret.
  repeat (next_repository_call; cbn [trace_of outcome_of world_of app map]);
    cbn [trace_of outcome_of world_of app map]; intros Hout;
    try discriminate Hout;
    (split; [|split]);
    first [ left; reflexivity
          | right; repeat eexists; reflexivity ].
Qed.
End Batches.

Lemma batches_are_whole_witness :
  let t := trace_of (create_test_data mem_models accounts_without_positions) in
  outcome_of (create_test_data mem_models accounts_without_positions)
  = Normal tt
  /\ filter is_create_user t = []
  /\ filter is_create_account t = []
  /\ List.length (filter is_add_position t) = 5.
Proof.
  cbv zeta.
  assert (Hout : outcome_of (create_test_data mem_models
                               accounts_without_positions) = Normal tt)
    by reflexivity.
  destruct (batches_are_whole mem_models accounts_without_positions Hout)
    as (_ & _ & [Hnone|[aid Hfive]]).
  - vm_compute in Hnone. discriminate Hnone.
  - split; [exact Hout|]. split; [reflexivity|]. split; [reflexivity|].
    rewrite Hfive. reflexivity.
Defined.

(** ** Concrete runs of the further properties *)

Lemma normal_run_ends_with_closing_lines_witness :
  let s := world_of (create_test_data mem_models empty_store) in
  let res := main (counting_client Store 0) mem_models
                  (scripted_shell Store (completed 0 "" "") (completed 0 "" ""))
                  {| with_test_data := true; skip_drop := true |} s in
  outcome_of res = Normal tt
  /\ creations (trace_of res) = []
  /\ In (Print (nl ++ "📝 Test user created:")) (trace_of res).
Proof.
  cbv zeta.
  assert (Hout : outcome_of
                   (main (counting_client Store 0) mem_models
                      (scripted_shell Store (completed 0 "" "")
                                      (completed 0 "" ""))
                      {| with_test_data := true; skip_drop := true |}
                      (world_of (create_test_data mem_models empty_store)))
                 = Normal tt) by (vm_compute; reflexivity).
  split; [exact Hout|]. split; [vm_compute; reflexivity|].
  destruct (normal_run_ends_with_closing_lines _ _ _ _ _ Hout) as [pre Hpre].
  rewrite Hpre. apply in_or_app. right.
  right. right. left. reflexivity.
Defined.

Lemma raising_call_stops_the_run_witness :
  let res := main (failing_client Store "connection refused") mem_models
                  (scripted_shell Store (completed 0 "" "") (completed 0 "" ""))
                  {| with_test_data := false; skip_drop := true |}
                  empty_store in
  (exists pre,
      trace_of res
      = pre ++ [Query "SELECT COUNT(*) as count FROM users"
                      (inl (Exception "connection refused"))])
  /\ outcome_of res = Raised (Exception "connection refused").
Proof.
  cbv zeta.
  set (res := main (failing_client Store "connection refused") mem_models
                (scripted_shell Store (completed 0 "" "") (completed 0 "" ""))
                {| with_test_data := false; skip_drop := true |} empty_store).
  assert (Ht : trace_of res
               = firstn 6 (trace_of res)
                 ++ Query "SELECT COUNT(*) as count FROM users"
                          (inl (Exception "connection refused"))
                 :: skipn 7 (trace_of res))
    by (vm_compute; reflexivity).
  destruct (raising_call_stops_the_run
              (failing_client Store "connection refused") mem_models
              (scripted_shell Store (completed 0 "" "") (completed 0 "" ""))
              {| with_test_data := false; skip_drop := true |} empty_store
              _ _ _ (Exception "connection refused") Ht eq_refl)
    as [Hpost Hout].
  split; [|exact Hout].
  exists (firstn 6 (trace_of res)). rewrite Ht at 1. rewrite Hpost. reflexivity.
Defined.

Lemma creations_and_skips_are_announced_witness :
  let fresh := trace_of (create_test_data mem_models empty_store) in
  let again := trace_of (create_test_data mem_models
                                          accounts_without_positions) in
  (exists post', skipn 3 fresh = Print "   ✅ Created test user" :: post')
  /\ (exists post',
        skipn 6 fresh = Print "   ✅ Created account: 401(k)" :: post')
  /\ (exists post',
        skipn 4 again = Print "   ℹ️  User already has 3 accounts" :: post')
  /\ (exists post',
        again
        = firstn 6 again
          ++ AddPosition 1 "SPY" (Dec "100") (inr tt)
          :: Print "   ✅ Added position: 100 shares of SPY" :: post').
Proof.
  cbv zeta.
  set (fresh := trace_of (create_test_data mem_models empty_store)).
  set (again := trace_of (create_test_data mem_models
                                           accounts_without_positions)).
  assert (H1 : fresh
               = firstn 2 fresh ++ CreateUser test_user (inr tt)
                 :: skipn 3 fresh) by (vm_compute; reflexivity).
  assert (H2 : fresh
               = firstn 5 fresh
                 ++ CreateAccount "test_user_001"
                      {| account_name := "401(k)";
                         account_purpose := "Primary retirement savings";
                         cash_balance := Dec "5000";
                         cash_interest := Dec "0.045" |} (inr 1)
                 :: skipn 6 fresh) by (vm_compute; reflexivity).
  assert (H3 : again
               = firstn 3 again
                 ++ FindByUser "test_user_001"
                      (inr (accounts accounts_without_positions))
                 :: skipn 4 again) by (vm_compute; reflexivity).
  assert (H4 : again
               = firstn 6 again
                 ++ AddPosition 1 "SPY" (Dec "100") (inr tt)
                 :: skipn 7 again) by (vm_compute; reflexivity).
  split; [|split; [|split]].
  - exact (creations_and_skips_are_announced mem_models empty_store _ _ _ H1).
  - exact (creations_and_skips_are_announced mem_models empty_store _ _ _ H2).
  - exact (creations_and_skips_are_announced
             mem_models accounts_without_positions _ _ _ H3).
  - destruct (creations_and_skips_are_announced
                mem_models accounts_without_positions _ _ _ H4) as [post' Hp].
    exists post'. rewrite H4 at 1. rewrite Hp. reflexivity.
Defined.

Lemma count_query_answer_decides_witness :
  let broken := final_verification (uncounted_client Store) empty_store in
  let report := final_verification (counting_client Store 22) empty_store in
  (outcome_of broken = Raised (Exception "'count'")
   /\ queried (trace_of broken) = ["SELECT COUNT(*) as count FROM users"])
  /\ exists post',
       trace_of report
       = [ Print (nl ++ "🔍 Final verification...");
           Query "SELECT COUNT(*) as count FROM users"
                 (inr [[("count", VInt 22)]]);
           Print "   • users: 22 records" ] ++ post'.
Proof.
  cbv zeta. split.
  - assert (H : trace_of (final_verification (uncounted_client Store)
                                             empty_store)
                = [Print (nl ++ "🔍 Final verification...")]
                  ++ Query "SELECT COUNT(*) as count FROM users"
                           (inr [[("total", VInt 3)]])
                  :: skipn 2 (trace_of (final_verification
                                          (uncounted_client Store) empty_store)))
      by (vm_compute; reflexivity).
    destruct (count_query_answer_decides _ _ _ _ _ _ H)
      as (table & _ & _ & Hpost & Hout).
    split; [exact Hout|]. rewrite H, Hpost. reflexivity.
  - assert (H : trace_of (final_verification (counting_client Store 22)
                                             empty_store)
                = [Print (nl ++ "🔍 Final verification...")]
                  ++ Query "SELECT COUNT(*) as count FROM users"
                           (inr [[("count", VInt 22)]])
                  :: skipn 2 (trace_of (final_verification
                                          (counting_client Store 22)
                                          empty_store)))
      by (vm_compute; reflexivity).
    destruct (count_query_answer_decides _ _ _ _ _ _ H)
      as (table & _ & Hsql & post' & Hpost).
    exists post'. rewrite H, Hpost.
    injection Hsql as <-. reflexivity.
Defined.
